(** * Synapse: a shallow embedding of the message bus, the agent registry
      and the message store, with the properties of their specification.

    Sources embedded: [synapse/models.py], [synapse/bus.py],
    [synapse/registry.py], [synapse/storage.py].

    Conventions.
    - A Python class [C] is a module [C] whose record [C.t] carries the
      instance attributes under their source names; methods are functions
      of that module taking the instance first.
    - Python integers are [Z]; [len] is [length] injected into [Z] where it
      meets an integer.
    - [datetime] is an instant: microseconds since the epoch, the resolution
      of Python's [datetime].  Every call of [datetime.now(timezone.utc)] is
      an explicit argument [now].
    - [dict[str, AgentInfo]] of the registry is an association list in
      insertion order (its iteration order is observable); the dictionaries
      of the bus are only looked up, counted and summed, and are [gmap]s.
    - Exceptions are values of [Py.exn]; code that can raise lives in the
      state-and-exception monad [Py.M].
    - A delivery hook is external code: the bus sees the outcome of calling
      it, and a publish leaves a trace of the hooks called and of the
      exceptions logged.  Log lines at [info] level are not recorded.
    - SQLite is the table it holds; whether it serves a call or raises
      [sqlite3.Error] is an argument of the call. *)

From Stdlib Require Import ZArith Lia Ascii.
From stdpp Require Import gmap strings list fin_maps.

Set Warnings "-register-all".
Local Open Scope string_scope.
Local Open Scope list_scope.
Local Open Scope Z_scope.

(** ** Python runtime: values, sequences, exceptions *)

Module Py.

(** Values that can sit in a [dict] crossing the API boundary.  Floats are
    left out: payloads are carried, never inspected. *)
Inductive value : Type :=
| VNone
| VBool (b : bool)
| VInt (z : Z)
| VStr (s : string)
| VList (l : list value)
| VDict (d : list (string * value)).

(** A [dict] with string keys, in insertion order. *)
Definition dict (V : Type) : Type := list (string * V).

Fixpoint dict_get {V} (k : string) (d : dict V) : option V :=
  match d with
  | [] => None
  | (k', v) :: d' => if decide (k' = k) then Some v else dict_get k d'
  end.

(** [d[k] = v]: replaces in place, a new key goes last. *)
Fixpoint dict_set {V} (k : string) (v : V) (d : dict V) : dict V :=
  match d with
  | [] => [(k, v)]
  | (k', v') :: d' =>
      if decide (k' = k) then (k', v) :: d' else (k', v') :: dict_set k v d'
  end.

Definition dict_values {V} (d : dict V) : list V := d.*2.

(** [l[start:]] for any integer [start]. *)
Definition slice_from {A} (start : Z) (l : list A) : list A :=
  let len := Z.of_nat (length l) in
  let start' := if start <? 0 then Z.max (start + len) 0 else Z.min start len in
  drop (Z.to_nat start') l.

(** [l[-n:]], the idiom of every bounded buffer in the bus. *)
Definition tail_slice {A} (n : Z) (l : list A) : list A := slice_from (- n) l.

(** Truthiness of a [str]. *)
Definition str_truthy (s : string) : bool := negb (String.eqb s "").

(** The exceptions that occur; all of them derive from [Exception].
    [HookError] stands for whatever [Exception] a delivery hook raises;
    signals below [BaseException] only (interrupts, cancellation) are not
    exceptions of this model. *)
Inductive exn : Type :=
| KeyError (key : string)
| ValueError
| TypeError
| SqliteError
| HookError.

(** [isinstance(e, Exception)], the test of [except Exception]. *)
Definition is_Exception (e : exn) : bool := true.

(** [isinstance(e, sqlite3.Error)]. *)

Definition is_sqlite3_Error (e : exn) : bool :=
  match e with SqliteError => true | _ => false end.

Inductive result (A : Type) : Type :=
| Ok (a : A)
| Raise (e : exn).
Arguments Ok {A} a.
Arguments Raise {A} e.

(** State and exceptions: a raise keeps the mutations made so far. *)
Definition M (S A : Type) : Type := S -> result A * S.

Definition ret {S A} (a : A) : M S A := fun s => (Ok a, s).

Definition bind {S A B} (c : M S A) (k : A -> M S B) : M S B :=
  fun s => match c s with
           | (Ok a, s') => k a s'
           | (Raise e, s') => (Raise e, s')
           end.

Definition raise {S A} (e : exn) : M S A := fun s => (Raise e, s).

Definition gets {S A} (f : S -> A) : M S A := fun s => (Ok (f s), s).

Definition modify {S} (f : S -> S) : M S unit := fun s => (Ok tt, f s).

(** [try: body / except <catches>: handler]. *)
Definition try_except {S A} (body : M S A) (catches : exn -> bool)
    (handler : exn -> M S A) : M S A :=
  fun s => match body s with
           | (Ok a, s') => (Ok a, s')
           | (Raise e, s') =>
               if catches e then handler e s' else (Raise e, s')
           end.

(** Exception-only computations ([S = unit] would do; kept separate for
    readability of pure parsers). *)
Definition rbind {A B} (r : result A) (k : A -> result B) : result B :=
  match r with Ok a => k a | Raise e => Raise e end.

Definition of_option {A} (e : exn) (o : option A) : result A :=
  match o with Some a => Ok a | None => Raise e end.

End Py.

Notation "x <- c ;; k" := (Py.bind c (fun x => k))
  (at level 100, c at next level, right associativity).
Notation "c ;;; k" := (Py.bind c (fun _ => k))
  (at level 100, right associativity).
Notation "x <-? r ;; k" := (Py.rbind r (fun x => k))
  (at level 100, r at next level, right associativity).

(** [datetime]: an instant in microseconds. *)
Definition datetime : Type := Z.

(** [(a - b).total_seconds()] counted in microseconds. *)
Definition elapsed_us (a b : datetime) : Z := a - b.

(** A total rendering of instants with its parser.  It is not ISO 8601; it
    is one pair of functions with the round-trip law of
    [isoformat]/[fromisoformat], to run the wire functions on. *)
Module ClockText.

Fixpoint of_pos (p : positive) : string :=
  match p with
  | xH => ""
  | xO q => String "0"%char (of_pos q)
  | xI q => String "1"%char (of_pos q)
  end.

Fixpoint to_pos (s : string) : option positive :=
  match s with
  | EmptyString => Some xH
  | String c s' =>
      if decide (c = "0"%char) then xO <$> to_pos s'
      else if decide (c = "1"%char) then xI <$> to_pos s'
      else None
  end.

Definition render (t : datetime) : string :=
  match t with
  | Z0 => "="
  | Zpos p => String "+"%char (of_pos p)
  | Zneg p => String "-"%char (of_pos p)
  end.

Definition parse (s : string) : option datetime :=
  match s with
  | EmptyString => None
  | String c s' =>
      if decide (c = "="%char) then (if decide (s' = "") then Some Z0 else None)
      else if decide (c = "+"%char) then Zpos <$> to_pos s'
      else if decide (c = "-"%char) then Zneg <$> to_pos s'
      else None
  end.

End ClockText.

(** ** models.py *)

Module MessageType.
Inductive t : Type := ALERT | DATA | COMMAND | QUERY | RESPONSE | EVENT.

Definition value (x : t) : string :=
  match x with
  | ALERT => "alert"
  | DATA => "data"
  | COMMAND => "command"
  | QUERY => "query"
  | RESPONSE => "response"
  | EVENT => "event"
  end.

(** [MessageType(s)]: lookup by value, [ValueError] otherwise. *)
Definition of_value (s : string) : option t :=
  if decide (s = "alert") then Some ALERT
  else if decide (s = "data") then Some DATA
  else if decide (s = "command") then Some COMMAND
  else if decide (s = "query") then Some QUERY
  else if decide (s = "response") then Some RESPONSE
  else if decide (s = "event") then Some EVENT
  else None.

(** A [str]-mixin member is truthy as its value is. *)
Definition truthy (x : t) : bool := Py.str_truthy (value x).

#[global] Instance eq_dec : EqDecision t.
Proof. solve_decision. Defined.
End MessageType.

Module Priority.
Inductive t : Type := CRITICAL | HIGH | NORMAL | LOW | BACKGROUND.

Definition value (x : t) : Z :=
  match x with
  | CRITICAL => 0
  | HIGH => 1
  | NORMAL => 2
  | LOW => 3
  | BACKGROUND => 4
  end.

(** [Priority(z)]. *)
Definition of_value (z : Z) : option t :=
  if decide (z = 0) then Some CRITICAL
  else if decide (z = 1) then Some HIGH
  else if decide (z = 2) then Some NORMAL
  else if decide (z = 3) then Some LOW
  else if decide (z = 4) then Some BACKGROUND
  else None.

#[global] Instance eq_dec : EqDecision t.
Proof. solve_decision. Defined.
End Priority.

Module AgentStatus.
Inductive t : Type := ONLINE | OFFLINE | BUSY.

Definition value (x : t) : string :=
  match x with
  | ONLINE => "online"
  | OFFLINE => "offline"
  | BUSY => "busy"
  end.

#[global] Instance eq_dec : EqDecision t.
Proof. solve_decision. Defined.
End AgentStatus.

Module SynapseMessage.

Record t : Type := Build {
  channel : string;
  sender : string;
  payload : Py.dict Py.value;
  type : MessageType.t;
  priority : Priority.t;
  id : string;
  timestamp : datetime;
  ttl : Z;
  reply_to : option string;
}.

Section wire.
(** [datetime.isoformat] and [datetime.fromisoformat] of the standard
    library; the latter is [None] where Python raises [ValueError]. *)
Variable isoformat : datetime -> string.
Variable fromisoformat : string -> option datetime.

Definition to_dict (self : t) : Py.dict Py.value :=
  [ ("id", Py.VStr (id self));
    ("channel", Py.VStr (channel self));
    ("sender", Py.VStr (sender self));
    ("type", Py.VStr (MessageType.value (type self)));
    ("priority", Py.VInt (Priority.value (priority self)));
    ("payload", Py.VDict (payload self));
    ("timestamp", Py.VStr (isoformat (timestamp self)));
    ("ttl", Py.VInt (ttl self));
    ("reply_to", match reply_to self with
                 | Some r => Py.VStr r
                 | None => Py.VNone
                 end) ].

(** [data[k]]. *)
Definition getitem (k : string) (data : Py.dict Py.value) : Py.result Py.value :=
  Py.of_option (Py.KeyError k) (Py.dict_get k data).

(** The dataclass does not check field types; the record does, so a
    value of another Python type in a typed field is a [TypeError]
    here. *)
Definition as_str (v : Py.value) : Py.result string :=
  match v with Py.VStr s => Py.Ok s | _ => Py.Raise Py.TypeError end.

Definition as_dict (v : Py.value) : Py.result (Py.dict Py.value) :=
  match v with Py.VDict d => Py.Ok d | _ => Py.Raise Py.TypeError end.

Definition as_int (v : Py.value) : Py.result Z :=
  match v with
  | Py.VInt z => Py.Ok z
  | _ => Py.Raise Py.TypeError
  end.

Definition as_optional_str (v : Py.value) : Py.result (option string) :=
  match v with
  | Py.VNone => Py.Ok None
  | Py.VStr s => Py.Ok (Some s)
  | _ => Py.Raise Py.TypeError
  end.

(** [MessageType(v)]: members are found by equality with their value. *)
Definition MessageType_call (v : Py.value) : Py.result MessageType.t :=
  match v with
  | Py.VStr s => Py.of_option Py.ValueError (MessageType.of_value s)
  | _ => Py.Raise Py.ValueError
  end.

(** [Priority(v)]; [True] and [False] equal 1 and 0. *)
Definition Priority_call (v : Py.value) : Py.result Priority.t :=
  match v with
  | Py.VInt z => Py.of_option Py.ValueError (Priority.of_value z)
  | Py.VBool b =>
      Py.of_option Py.ValueError (Priority.of_value (if b then 1 else 0))
  | _ => Py.Raise Py.ValueError
  end.

Definition fromisoformat_call (v : Py.value) : Py.result datetime :=
  match v with
  | Py.VStr s => Py.of_option Py.ValueError (fromisoformat s)
  | _ => Py.Raise Py.TypeError
  end.

(** Keyword arguments are evaluated in the order written. *)
Definition from_dict (data : Py.dict Py.value) : Py.result t :=
  id_ <-? (v <-? getitem "id" data ;; as_str v) ;;
  channel_ <-? (v <-? getitem "channel" data ;; as_str v) ;;
  sender_ <-? (v <-? getitem "sender" data ;; as_str v) ;;
  type_ <-? (v <-? getitem "type" data ;; MessageType_call v) ;;
  priority_ <-? (v <-? getitem "priority" data ;; Priority_call v) ;;
  payload_ <-? (v <-? getitem "payload" data ;; as_dict v) ;;
  timestamp_ <-? (v <-? getitem "timestamp" data ;; fromisoformat_call v) ;;
  ttl_ <-? as_int (default (Py.VInt 0) (Py.dict_get "ttl" data)) ;;
  reply_to_ <-? as_optional_str (default Py.VNone (Py.dict_get "reply_to" data)) ;;
  Py.Ok {| channel := channel_; sender := sender_; payload := payload_;
           type := type_; priority := priority_; id := id_;
           timestamp := timestamp_; ttl := ttl_; reply_to := reply_to_ |}.
End wire.

End SynapseMessage.

Module AgentInfo.

Record t : Type := Build {
  name : string;
  capabilities : list string;
  channels : list string;
  status : AgentStatus.t;
  registered_at : datetime;
  last_heartbeat : datetime;
  metadata : Py.dict Py.value;
}.

Definition set_capabilities (v : list string) (a : t) : t :=
  Build (name a) v (channels a) (status a) (registered_at a)
        (last_heartbeat a) (metadata a).

Definition set_channels (v : list string) (a : t) : t :=
  Build (name a) (capabilities a) v (status a) (registered_at a)
        (last_heartbeat a) (metadata a).

Definition set_status (v : AgentStatus.t) (a : t) : t :=
  Build (name a) (capabilities a) (channels a) v (registered_at a)
        (last_heartbeat a) (metadata a).

Definition set_last_heartbeat (v : datetime) (a : t) : t :=
  Build (name a) (capabilities a) (channels a) (status a) (registered_at a)
        v (metadata a).

Definition set_metadata (v : Py.dict Py.value) (a : t) : t :=
  Build (name a) (capabilities a) (channels a) (status a) (registered_at a)
        (last_heartbeat a) v.

(** [AgentInfo(name=..., capabilities=..., channels=..., metadata=...)]:
    status defaults to [ONLINE]; both timestamps come from the clock. *)
Definition new (now : datetime) (name_ : string) (capabilities_ channels_ : list string)
    (metadata_ : Py.dict Py.value) : t :=
  Build name_ capabilities_ channels_ AgentStatus.ONLINE now now metadata_.

End AgentInfo.

Module Channel.

Record t : Type := Build {
  name : string;
  description : string;
  created_at : datetime;
  message_count : Z;
}.

Definition set_message_count (v : Z) (c : t) : t :=
  Build (name c) (description c) (created_at c) v.

End Channel.

(** ** registry.py *)

Module AgentRegistry.

Record t : Type := Build {
  _agents : Py.dict AgentInfo.t;
  _heartbeat_timeout : Z;
}.

(** [AgentRegistry(heartbeat_timeout=60)]. *)
Definition init (heartbeat_timeout : Z) : t := Build [] heartbeat_timeout.

Definition set_agents (v : Py.dict AgentInfo.t) (self : t) : t :=
  Build v (_heartbeat_timeout self).

(** [x if x is not None else keep]. *)
Definition update_if_given {A} (arg : option A) (set : A -> AgentInfo.t -> AgentInfo.t)
    (a : AgentInfo.t) : AgentInfo.t :=
  match arg with Some v => set v a | None => a end.

Definition register (self : t) (now : datetime) (name : string)
    (capabilities channels : option (list string))
    (metadata : option (Py.dict Py.value)) : t * AgentInfo.t :=
  match Py.dict_get name (_agents self) with
  | Some agent =>
      let agent := AgentInfo.set_status AgentStatus.ONLINE agent in
      let agent := AgentInfo.set_last_heartbeat now agent in
      let agent := update_if_given capabilities AgentInfo.set_capabilities agent in
      let agent := update_if_given channels AgentInfo.set_channels agent in
      let agent := update_if_given metadata AgentInfo.set_metadata agent in
      (set_agents (Py.dict_set name agent (_agents self)) self, agent)
  | None =>
      (* [x or []]: an empty argument and a missing one both give the empty value *)
      let agent := AgentInfo.new now name (default [] capabilities)
                     (default [] channels) (default [] metadata) in
      (set_agents (Py.dict_set name agent (_agents self)) self, agent)
  end.

Definition unregister (self : t) (name : string) : t * bool :=
  match Py.dict_get name (_agents self) with
  | Some agent =>
      (set_agents (Py.dict_set name (AgentInfo.set_status AgentStatus.OFFLINE agent)
                     (_agents self)) self, true)
  | None => (self, false)
  end.

Definition heartbeat (self : t) (now : datetime) (name : string) : t * bool :=
  match Py.dict_get name (_agents self) with
  | Some agent =>
      let agent := AgentInfo.set_last_heartbeat now agent in
      let agent := AgentInfo.set_status AgentStatus.ONLINE agent in
      (set_agents (Py.dict_set name agent (_agents self)) self, true)
  | None =>
      let '(self, _) := register self now name None None None in
      (self, true)
  end.

Definition get (self : t) (name : string) : option AgentInfo.t :=
  Py.dict_get name (_agents self).

Definition list_agents (self : t) (status : option AgentStatus.t) : list AgentInfo.t :=
  let agents := Py.dict_values (_agents self) in
  match status with
  | Some st => filter (fun a => AgentInfo.status a = st) agents
  | None => agents
  end.

Definition find_by_capability (self : t) (capability : string) : list AgentInfo.t :=
  filter (fun a => capability ∈ AgentInfo.capabilities a
                   ∧ AgentInfo.status a = AgentStatus.ONLINE)
         (Py.dict_values (_agents self)).

(** [delta > self._heartbeat_timeout] with [delta] the elapsed seconds:
    [total_seconds()] is the microsecond count divided by [10**6], and a
    float is compared to an integer exactly, so the test is the one on
    microseconds (the division is exact to well below a microsecond for
    timeouts under [2**33] seconds). *)
Definition timed_out_p (self : t) (now : datetime) (agent : AgentInfo.t) : Prop :=
  elapsed_us now (AgentInfo.last_heartbeat agent) > _heartbeat_timeout self * 1000000.

#[global] Instance timed_out_dec self now agent : Decision (timed_out_p self now agent).
Proof. unfold timed_out_p. apply _. Defined.

(** The loop of [check_timeouts] over [self._agents.values()]: agents are
    mutated in place, names are appended in iteration order. *)
Fixpoint sweep (self : t) (now : datetime) (agents : Py.dict AgentInfo.t)
    : Py.dict AgentInfo.t * list string :=
  match agents with
  | [] => ([], [])
  | (k, agent) :: rest =>
      let '(rest', timed_out) := sweep self now rest in
      if decide (AgentInfo.status agent = AgentStatus.ONLINE) then
        if decide (timed_out_p self now agent) then
          ((k, AgentInfo.set_status AgentStatus.OFFLINE agent) :: rest',
           AgentInfo.name agent :: timed_out)
        else ((k, agent) :: rest', timed_out)
      else ((k, agent) :: rest', timed_out)
  end.

Definition check_timeouts (self : t) (now : datetime) : t * list string :=
  let '(agents, timed_out) := sweep self now (_agents self) in
  (set_agents agents self, timed_out).

(** The public calls of the registry, and the registry each leaves
    behind; the lookups leave it as it was. *)
Inductive call : Type :=
| Register (name : string) (capabilities channels : option (list string))
           (metadata : option (Py.dict Py.value))
| Unregister (name : string)
| Heartbeat (name : string)
| Get (name : string)
| ListAgents (status : option AgentStatus.t)
| FindByCapability (capability : string)
| CheckTimeouts.

Definition run (self : t) (now : datetime) (c : call) : t :=
  match c with
  | Register name capabilities channels metadata =>
      (register self now name capabilities channels metadata).1
  | Unregister name => (unregister self name).1
  | Heartbeat name => (heartbeat self now name).1
  | Get _ | ListAgents _ | FindByCapability _ => self
  | CheckTimeouts => (check_timeouts self now).1
  end.

(** The status recorded under each key, in order. *)
Definition statuses (self : t) : list (string * AgentStatus.t) :=
  (fun ka => (ka.1, AgentInfo.status ka.2)) <$> _agents self.

End AgentRegistry.

(** ** storage.py *)

Module MessageStore.

(** A row of table [messages].  The [TEXT] columns [payload] and
    [timestamp] hold [json.dumps(payload)] and [timestamp.isoformat()];
    the row keeps the values those texts denote. *)
Record Row : Type := BuildRow {
  id : string;
  channel : string;
  sender : string;
  type : string;
  priority : Z;
  payload : Py.dict Py.value;
  timestamp : datetime;
  ttl : Z;
  reply_to : option string;
}.

(** The database file: the rows of [messages] in insertion order. *)
Record t : Type := Build {
  messages : list Row;
}.

(** Whether SQLite serves the statements of one call or raises
    [sqlite3.Error] (locked or unreadable file, full disk). *)
Inductive engine : Type := Serving | Failing.

(** [with self._conn() as conn: ...]: a failing engine raises before
    anything is written. *)
Definition with_conn {A} (e : engine) (body : Py.M t A) : Py.M t A :=
  match e with
  | Serving => body
  | Failing => Py.raise Py.SqliteError
  end.

Definition row_of (msg : SynapseMessage.t) : Row :=
  {| id := SynapseMessage.id msg;
     channel := SynapseMessage.channel msg;
     sender := SynapseMessage.sender msg;
     type := MessageType.value (SynapseMessage.type msg);
     priority := Priority.value (SynapseMessage.priority msg);
     payload := SynapseMessage.payload msg;
     timestamp := SynapseMessage.timestamp msg;
     ttl := SynapseMessage.ttl msg;
     reply_to := SynapseMessage.reply_to msg |}.

(** [INSERT OR IGNORE INTO messages ...] under [id TEXT PRIMARY KEY]. *)
Definition insert_or_ignore (r : Row) (db : t) : t :=
  if decide (id r ∈ id <$> messages db) then db
  else Build (messages db ++ [r]).

Definition store (e : engine) (msg : SynapseMessage.t) : Py.M t bool :=
  Py.try_except
    (with_conn e (Py.modify (insert_or_ignore (row_of msg)) ;;; Py.ret true))
    Py.is_sqlite3_Error
    (fun _ => Py.ret false).

(** [count(channel)]; an empty channel name counts every row. *)
Definition count (e : engine) (channel_ : option string) : Py.M t Z :=
  with_conn e
    (match channel_ with
     | Some c =>
         if Py.str_truthy c
         then Py.gets (fun db => Z.of_nat (length (filter (fun r => channel r = c) (messages db))))
         else Py.gets (fun db => Z.of_nat (length (messages db)))
     | None => Py.gets (fun db => Z.of_nat (length (messages db)))
     end).

(** [CAST((julianday('now') - julianday(timestamp)) * 86400 AS INTEGER)]:
    the elapsed seconds, truncated toward zero.  SQLite computes it in
    doubles from millisecond day counts; the model computes it exactly
    from the instants. *)
Definition age_seconds (now : datetime) (r : Row) : Z :=
  Z.quot (elapsed_us now (timestamp r)) 1000000.

(** The [WHERE] clause of [cleanup_expired]. *)
Definition expired (now : datetime) (r : Row) : Prop :=
  ttl r > 0 ∧ age_seconds now r > ttl r.

#[global] Instance expired_dec now r : Decision (expired now r).
Proof. unfold expired. apply _. Defined.


End MessageStore.

(** ** bus.py *)

Module Subscription.

(** What awaiting a coroutine returned by a hook does. *)
Inductive awaited : Type := Completes | AwaitRaises.

(** What calling a delivery hook does: it returns a plain value, returns
    a coroutine, or raises an [Exception]. *)
Inductive call_result : Type :=
| Returns
| ReturnsCoroutine (a : awaited)
| Raises.

(** A hook is external code; the bus sees only the outcome of the call.
    Hooks that re-enter the bus are outside the model. *)
Definition Callback : Type := SynapseMessage.t -> call_result.

Record t : Type := Build {
  agent_name : string;
  channel : string;
  callback : option Callback;
  priority_min : Priority.t;
  type_filter : option MessageType.t;
}.

Definition matches (self : t) (msg : SynapseMessage.t) : bool :=
  if decide (Priority.value (SynapseMessage.priority msg)
             > Priority.value (priority_min self)) then false
  else if match type_filter self with
          | Some f => MessageType.truthy f
                      && bool_decide (SynapseMessage.type msg ≠ f)
          | None => false
          end then false
  else true.

End Subscription.

Module SynapseBus.

Record t : Type := Build {
  registry : AgentRegistry.t;
  storage : option MessageStore.t;
  _channels : gmap string Channel.t;
  _subscriptions : gmap string (list Subscription.t);
  _message_history : list SynapseMessage.t;
  _max_history : Z;
  _inbox : gmap string (list SynapseMessage.t);
  _max_inbox : Z;
}.

Definition set_storage (v : option MessageStore.t) (b : t) : t :=
  Build (registry b) v (_channels b) (_subscriptions b) (_message_history b)
        (_max_history b) (_inbox b) (_max_inbox b).

Definition set_channels (v : gmap string Channel.t) (b : t) : t :=
  Build (registry b) (storage b) v (_subscriptions b) (_message_history b)
        (_max_history b) (_inbox b) (_max_inbox b).

Definition set_subscriptions (v : gmap string (list Subscription.t)) (b : t) : t :=
  Build (registry b) (storage b) (_channels b) v (_message_history b)
        (_max_history b) (_inbox b) (_max_inbox b).

Definition set_message_history (v : list SynapseMessage.t) (b : t) : t :=
  Build (registry b) (storage b) (_channels b) (_subscriptions b) v
        (_max_history b) (_inbox b) (_max_inbox b).

Definition set_inbox (v : gmap string (list SynapseMessage.t)) (b : t) : t :=
  Build (registry b) (storage b) (_channels b) (_subscriptions b)
        (_message_history b) (_max_history b) v (_max_inbox b).

Definition create_channel (self : t) (now : datetime) (name description : string)
    : t * Channel.t :=
  match _channels self !! name with
  | Some ch => (self, ch)
  | None =>
      let ch := Channel.Build name description now 0 in
      (set_channels (<[name := ch]> (_channels self)) self, ch)
  end.

Definition default_channels : list (string * string) :=
  [ ("#alerts", "Critical notifications — crashes, stop-loss, system errors");
    ("#market-data", "TESS market signals, prices, sentiment");
    ("#learning", "Genesis insights, patterns, knowledge");
    ("#commands", "Direct instructions (user → agent)");
    ("#heartbeat", "Agent health (automatic)");
    ("#system", "Bus internal events") ].

(** [SynapseBus(registry, storage)]: [registry or AgentRegistry()]. *)
Definition init (now : datetime) (registry_ : option AgentRegistry.t)
    (storage_ : option MessageStore.t) : t :=
  let self := Build (default (AgentRegistry.init 60) registry_) storage_
                    ∅ ∅ [] 1000 ∅ 100 in
  foldl (fun self nd => (create_channel self now nd.1 nd.2).1) self default_channels.

Definition get_channel (self : t) (name : string) : option Channel.t :=
  _channels self !! name.

(** [self._subscriptions[channel].append(sub)] on a [defaultdict(list)]. *)
Definition subscribe (self : t) (now : datetime) (agent_name channel : string)
    (callback : option Subscription.Callback) (priority_min : Priority.t)
    (type_filter : option MessageType.t) : t * Subscription.t :=
  let self := (create_channel self now channel "").1 in
  let sub := Subscription.Build agent_name channel callback priority_min type_filter in
  (set_subscriptions
     (<[channel := default [] (_subscriptions self !! channel) ++ [sub]]>
        (_subscriptions self)) self,
   sub).

(** What a publish does to the world outside the bus object. *)
Inductive event : Type :=
| HookCalled (agent_name : string) (msg : SynapseMessage.t)
| HookAwaited (agent_name : string)
| LoggedException (agent_name channel : string).

(** The bus object and the trace of outside effects. *)
Record world : Type := World {
  bus : t;
  trace : list event;
}.

Definition modify_bus (f : t -> t) : Py.M world unit :=
  Py.modify (fun w => World (f (bus w)) (trace w)).

Definition emit (e : event) : Py.M world unit :=
  Py.modify (fun w => World (bus w) (trace w ++ [e])).

(** [self._channels[msg.channel].message_count += 1]. *)
Definition bump_message_count (name : string) : Py.M world unit :=
  o <- Py.gets (fun w => _channels (bus w) !! name) ;;
  match o with
  | None => Py.raise (Py.KeyError name)
  | Some ch =>
      modify_bus (fun b =>
        set_channels
          (<[name := Channel.set_message_count (Channel.message_count ch + 1) ch]>
             (_channels b)) b)
  end.

(** [self._message_history.append(msg)] and the trim that follows. *)
Definition record_history (msg : SynapseMessage.t) (b : t) : t :=
  let b := set_message_history (_message_history b ++ [msg]) b in
  if decide (Z.of_nat (length (_message_history b)) > _max_history b)
  then set_message_history (Py.tail_slice (_max_history b) (_message_history b)) b
  else b.

(** [inbox = self._inbox[agent]; inbox.append(msg)] and the trim. *)
Definition append_inbox (agent : string) (msg : SynapseMessage.t) (b : t) : t :=
  let inbox := default [] (_inbox b !! agent) ++ [msg] in
  let b := set_inbox (<[agent := inbox]> (_inbox b)) b in
  if decide (Z.of_nat (length inbox) > _max_inbox b)
  then set_inbox (<[agent := Py.tail_slice (_max_inbox b) inbox]> (_inbox b)) b
  else b.

(** [if sub.callback: try: ... except Exception: log.exception(...)]. *)
Definition fire_callback (sub : Subscription.t) (msg : SynapseMessage.t)
    : Py.M world unit :=
  match Subscription.callback sub with
  | None => Py.ret tt
  | Some cb =>
      Py.try_except
        (emit (HookCalled (Subscription.agent_name sub) msg) ;;;
         match cb msg with
         | Subscription.Returns => Py.ret tt
         | Subscription.Raises => Py.raise Py.HookError
         | Subscription.ReturnsCoroutine a =>
             emit (HookAwaited (Subscription.agent_name sub)) ;;;
             match a with
             | Subscription.Completes => Py.ret tt
             | Subscription.AwaitRaises => Py.raise Py.HookError
             end
         end)
        Py.is_Exception
        (fun _ => emit (LoggedException (Subscription.agent_name sub)
                          (SynapseMessage.channel msg)))
  end.

(** The delivery loop, [delivered] being its counter. *)
Fixpoint deliver (subs : list Subscription.t) (msg : SynapseMessage.t)
    (delivered : Z) : Py.M world Z :=
  match subs with
  | [] => Py.ret delivered
  | sub :: rest =>
      if negb (Subscription.matches sub msg) then deliver rest msg delivered
      else
        modify_bus (append_inbox (Subscription.agent_name sub) msg) ;;;
        fire_callback sub msg ;;;
        deliver rest msg (delivered + 1)
  end.

(** [if self.storage: self.storage.store(msg)]; the result is dropped. *)
Definition persist (e : MessageStore.engine) (msg : SynapseMessage.t)
    : Py.M world unit :=
  fun w =>
    match storage (bus w) with
    | None => (Py.Ok tt, w)
    | Some db =>
        let '(r, db') := MessageStore.store e msg db in
        let w' := World (set_storage (Some db') (bus w)) (trace w) in
        match r with
        | Py.Ok _ => (Py.Ok tt, w')
        | Py.Raise x => (Py.Raise x, w')
        end
    end.

Definition publish (now : datetime) (e : MessageStore.engine)
    (msg : SynapseMessage.t) : Py.M world Z :=
  modify_bus (fun b => (create_channel b now (SynapseMessage.channel msg) "").1) ;;;
  bump_message_count (SynapseMessage.channel msg) ;;;
  modify_bus (record_history msg) ;;;
  subs <- Py.gets (fun w =>
            default [] (_subscriptions (bus w) !! SynapseMessage.channel msg)) ;;
  delivered <- deliver subs msg 0 ;;
  persist e msg ;;;
  Py.ret delivered.

(** A run of publishes, one after the other; the delivery counts in order. *)
Fixpoint publish_all (now : datetime) (e : MessageStore.engine)
    (msgs : list SynapseMessage.t) : Py.M world (list Z) :=
  match msgs with
  | [] => Py.ret []
  | msg :: rest =>
      d <- publish now e msg ;;
      ds <- publish_all now e rest ;;
      Py.ret (d :: ds)
  end.

Definition get_inbox (self : t) (agent_name : string) (limit : Z)
    (channel : option string) : list SynapseMessage.t :=
  let msgs := default [] (_inbox self !! agent_name) in
  let msgs :=
    match channel with
    | Some c => if Py.str_truthy c
                then filter (fun m => SynapseMessage.channel m = c) msgs
                else msgs
    | None => msgs
    end in
  Py.tail_slice limit msgs.

Definition clear_inbox (self : t) (agent_name : string) : t * Z :=
  let count := Z.of_nat (length (default [] (_inbox self !! agent_name))) in
  (set_inbox (<[agent_name := []]> (_inbox self)) self, count).

(** [if since:] holds for every [datetime]. *)
Definition get_history (self : t) (channel : option string) (limit : Z)
    (since : option datetime) : list SynapseMessage.t :=
  let msgs := _message_history self in
  let msgs :=
    match channel with
    | Some c => if Py.str_truthy c
                then filter (fun m => SynapseMessage.channel m = c) msgs
                else msgs
    | None => msgs
    end in
  let msgs :=
    match since with
    | Some s => filter (fun m => SynapseMessage.timestamp m >= s) msgs
    | None => msgs
    end in
  Py.tail_slice limit msgs.

(** The [dict] returned by [stats], one field per key. *)
Record Stats : Type := BuildStats {
  channels : Z;
  subscriptions : Z;
  agents_online : Z;
  messages_total : Z;
  history_size : Z;
}.

Definition stats (self : t) : Stats :=
  {| channels := Z.of_nat (size (_channels self));
     subscriptions :=
       map_fold (fun _ s acc => Z.of_nat (length s) + acc) 0 (_subscriptions self);
     agents_online :=
       Z.of_nat (length (AgentRegistry.list_agents (registry self) None));
     messages_total :=
       map_fold (fun _ c acc => Channel.message_count c + acc) 0 (_channels self);
     history_size := Z.of_nat (length (_message_history self)) |}.

Definition set_registry (v : AgentRegistry.t) (b : t) : t :=
  Build v (storage b) (_channels b) (_subscriptions b) (_message_history b)
        (_max_history b) (_inbox b) (_max_inbox b).

(** One round of the loop of [unsubscribe]: [self._subscriptions[ch]] is
    read (a missing key reads as the empty list), filtered and assigned
    back. *)
Definition unsubscribe_step (agent_name : string) (acc : t * Z) (ch : string) : t * Z :=
  let before := default [] (_subscriptions acc.1 !! ch) in
  let kept := filter (fun s => Subscription.agent_name s <> agent_name) before in
  (set_subscriptions (<[ch := kept]> (_subscriptions acc.1)) acc.1,
   acc.2 + (Z.of_nat (length before) - Z.of_nat (length kept))).

(** [unsubscribe(agent_name, channel)]: one channel when a non-empty name
    is given, else every key of [self._subscriptions] (the order of the keys
    does not show in the result). *)
Definition unsubscribe (self : t) (agent_name : string) (channel : option string)
    : t * Z :=
  let keys := (map_to_list (_subscriptions self)).*1 in
  let channels :=
    match channel with
    | Some c => if Py.str_truthy c then [c] else keys
    | None => keys
    end in
  foldl (unsubscribe_step agent_name) (self, 0) channels.

(** The calls that change a bus, and the world each leaves behind. *)
Inductive call : Type :=
| CreateChannel (name description : string)
| Subscribe (agent_name channel : string) (callback : option Subscription.Callback)
            (priority_min : Priority.t) (type_filter : option MessageType.t)
| Unsubscribe (agent_name : string) (channel : option string)
| Publish (e : MessageStore.engine) (msg : SynapseMessage.t)
| ClearInbox (agent_name : string).

Definition run (w : world) (now : datetime) (c : call) : world :=
  match c with
  | CreateChannel name description =>
      World (create_channel (bus w) now name description).1 (trace w)
  | Subscribe agent_name channel callback priority_min type_filter =>
      World (subscribe (bus w) now agent_name channel callback priority_min type_filter).1
            (trace w)
  | Unsubscribe agent_name channel =>
      World (unsubscribe (bus w) agent_name channel).1 (trace w)
  | Publish e msg => (publish now e msg w).2
  | ClearInbox agent_name => World (clear_inbox (bus w) agent_name).1 (trace w)
  end.

End SynapseBus.

(** ** server.py: the endpoints over the registry and the bus *)

Module Server.

(** [RegisterRequest]. *)
Record RegisterRequest : Type := BuildRegisterRequest {
  name : string;
  capabilities : list string;
  channels : list string;
  metadata : Py.dict Py.value;
}.

(** [register_agent(req)]: the registration, then one subscription per
    requested channel with the default filters.  The server's [registry]
    is the registry the bus holds. *)
Definition register_agent (b : SynapseBus.t) (now : datetime) (req : RegisterRequest)
    : SynapseBus.t * AgentInfo.t :=
  let '(reg, agent) :=
    AgentRegistry.register (SynapseBus.registry b) now (name req)
      (Some (capabilities req)) (Some (channels req)) (Some (metadata req)) in
  let b := SynapseBus.set_registry reg b in
  (foldl (fun b ch =>
            (SynapseBus.subscribe b now (name req) ch None Priority.BACKGROUND None).1)
         b (channels req),
   agent).

(** [unregister_agent(name)]: [None] is the [HTTPException(404)]. *)
Definition unregister_agent (b : SynapseBus.t) (name_ : string) : option SynapseBus.t :=
  let '(reg, found) := AgentRegistry.unregister (SynapseBus.registry b) name_ in
  if negb found then None
  else
    let b := SynapseBus.set_registry reg b in
    Some (SynapseBus.unsubscribe b name_ None).1.



End Server.

(** ** Vocabulary of the statements *)

(** An agent the sweep is to demote: online, and its heartbeat older than
    the timeout. *)
Definition lapsed (reg : AgentRegistry.t) (now : datetime) (a : AgentInfo.t) : Prop :=
  AgentInfo.status a = AgentStatus.ONLINE /\ AgentRegistry.timed_out_p reg now a.

#[global] Instance lapsed_dec reg now a : Decision (lapsed reg now a).
Proof. unfold lapsed. apply _. Defined.

Definition demote_if_lapsed (reg : AgentRegistry.t) (now : datetime) (a : AgentInfo.t)
    : AgentInfo.t :=
  if decide (lapsed reg now a) then AgentInfo.set_status AgentStatus.OFFLINE a else a.

(** The subscriptions of a list that match a message, in order. *)
Definition matching (subs : list Subscription.t) (msg : SynapseMessage.t)
    : list Subscription.t :=
  filter (fun s => Subscription.matches s msg = true) subs.


(** What firing the hook of one subscription leaves in the trace. *)
Definition hook_events (msg : SynapseMessage.t) (s : Subscription.t)
    : list SynapseBus.event :=
  let agent := Subscription.agent_name s in
  let logged := SynapseBus.LoggedException agent (SynapseMessage.channel msg) in
  match Subscription.callback s with
  | None => []
  | Some cb =>
      SynapseBus.HookCalled agent msg ::
      match cb msg with
      | Subscription.Returns => []
      | Subscription.Raises => [logged]
      | Subscription.ReturnsCoroutine Subscription.Completes =>
          [SynapseBus.HookAwaited agent]
      | Subscription.ReturnsCoroutine Subscription.AwaitRaises =>
          [SynapseBus.HookAwaited agent; logged]
      end
  end.

(** The inbox writes of a run of deliveries. *)
Definition deliver_inboxes (msg : SynapseMessage.t) (subs : list Subscription.t)
    (b : SynapseBus.t) : SynapseBus.t :=
  foldl (fun b s => SynapseBus.append_inbox (Subscription.agent_name s) msg b) b subs.

(** The inbox of an agent; a missing entry reads as empty. *)
Definition inbox_of (b : SynapseBus.t) (agent : string) : list SynapseMessage.t :=
  default [] (SynapseBus._inbox b !! agent).

(** The subscriptions on a channel; a missing entry reads as empty. *)
Definition subscriptions_on (b : SynapseBus.t) (channel : string) : list Subscription.t :=
  default [] (SynapseBus._subscriptions b !! channel).

(** The buffer bounds as [__init__] sets them; nothing reassigns them. *)
Definition default_bounds (b : SynapseBus.t) : Prop :=
  SynapseBus._max_history b = 1000 /\ SynapseBus._max_inbox b = 100.

(** One arrival in a bounded buffer: append, then trim if over the bound. *)
Definition push (cap : Z) (msg : SynapseMessage.t) (l : list SynapseMessage.t)
    : list SynapseMessage.t :=
  if decide (Z.of_nat (length (l ++ [msg])) > cap)
  then Py.tail_slice cap (l ++ [msg])
  else l ++ [msg].

(** The channel record after one more publish on it. *)
Definition bumped (b : SynapseBus.t) (now : datetime) (c : string) : Channel.t :=
  match SynapseBus._channels b !! c with
  | Some ch => Channel.set_message_count (Channel.message_count ch + 1) ch
  | None => Channel.Build c "" now 1
  end.

(** The last [n] elements of a list. *)
Definition last_n {A} (n : nat) (l : list A) : list A := drop (length l - n) l.

(** A registry as its calls build it: one record per key, named as its
    key. *)
Definition registry_wf (reg : AgentRegistry.t) : Prop :=
  NoDup (AgentRegistry._agents reg).*1
  /\ Forall (fun ka => AgentInfo.name ka.2 = ka.1) (AgentRegistry._agents reg).

(** The registries reached from a new one by the public calls. *)
Inductive registry_reachable : AgentRegistry.t -> Prop :=
| registry_reachable_init timeout :
    registry_reachable (AgentRegistry.init timeout)
| registry_reachable_run reg now c :
    registry_reachable reg -> registry_reachable (AgentRegistry.run reg now c).

(** The worlds reached from a new bus by the calls that change it. *)
Inductive bus_reachable : SynapseBus.world -> Prop :=
| bus_reachable_init now registry storage :
    bus_reachable (SynapseBus.World (SynapseBus.init now registry storage) [])
| bus_reachable_run w now c :
    bus_reachable w -> bus_reachable (SynapseBus.run w now c).

(** What every reachable bus satisfies. *)
Record bus_inv (b : SynapseBus.t) : Prop := BusInv {
  inv_bounds : default_bounds b;
  inv_history : (length (SynapseBus._message_history b) <= 1000)%nat;
  inv_inbox : forall a, (length (inbox_of b a) <= 100)%nat;
  inv_subs : forall c s,
      s ∈ subscriptions_on b c ->
      Subscription.channel s = c /\ is_Some (SynapseBus._channels b !! c);
  inv_channels : forall k ch,
      SynapseBus._channels b !! k = Some ch ->
      Channel.name ch = k /\ 0 <= Channel.message_count ch;
}.

(** The six channels of [__init__] are there. *)
Definition has_default_channels (b : SynapseBus.t) : Prop :=
  forall nd, nd ∈ SynapseBus.default_channels -> is_Some (SynapseBus._channels b !! nd.1).


(** The wire record of a message without its optional entries. *)
Definition without_optional (d : Py.dict Py.value) : Py.dict Py.value :=
  filter (fun kv => kv.1 <> "ttl" /\ kv.1 <> "reply_to") d.

(** A message with the defaults of the optional fields. *)
Definition with_optional_defaults (m : SynapseMessage.t) : SynapseMessage.t :=
  {| SynapseMessage.channel := SynapseMessage.channel m;
     SynapseMessage.sender := SynapseMessage.sender m;
     SynapseMessage.payload := SynapseMessage.payload m;
     SynapseMessage.type := SynapseMessage.type m;
     SynapseMessage.priority := SynapseMessage.priority m;
     SynapseMessage.id := SynapseMessage.id m;
     SynapseMessage.timestamp := SynapseMessage.timestamp m;
     SynapseMessage.ttl := 0;
     SynapseMessage.reply_to := None |}.

(** The subscription [register_agent] makes for a channel. *)
Definition endpoint_subscription (n c : string) : Subscription.t :=
  Subscription.Build n c None Priority.BACKGROUND None.


(** The subscriptions of an agent among those of a list. *)
Definition of_agent (a : string) (subs : list Subscription.t) : list Subscription.t :=
  filter (fun s => Subscription.agent_name s = a) subs.

(** ** Sample states and inputs *)

Module Samples.

(** The message of the round-trip test of the repository. *)
Definition roundtrip_sample : SynapseMessage.t :=
  {| SynapseMessage.channel := "#alerts";
     SynapseMessage.sender := "agent-a";
     SynapseMessage.payload := [("data", Py.VInt 42)];
     SynapseMessage.type := MessageType.DATA;
     SynapseMessage.priority := Priority.HIGH;
     SynapseMessage.id := "0123456789ab";
     SynapseMessage.timestamp := 1700000000000000;
     SynapseMessage.ttl := 300;
     SynapseMessage.reply_to := Some "abc123" |}.

(** A message with a ten-second time to live, created at instant 0. *)
Definition ttl10_message : SynapseMessage.t :=
  {| SynapseMessage.channel := "#alerts";
     SynapseMessage.sender := "agent-a";
     SynapseMessage.payload := [];
     SynapseMessage.type := MessageType.EVENT;
     SynapseMessage.priority := Priority.NORMAL;
     SynapseMessage.id := "0123456789ab";
     SynapseMessage.timestamp := 0;
     SynapseMessage.ttl := 10;
     SynapseMessage.reply_to := None |}.




(** A hook that raises on every message, and one that returns. *)
Definition raising_hook : Subscription.Callback := fun _ => Subscription.Raises.
Definition quiet_hook : Subscription.Callback := fun _ => Subscription.Returns.

(** A fresh bus on which [agent-a], with a raising hook, and then
    [agent-b], with a quiet one, subscribe to [#alerts]. *)
Definition bus_two_subscribers : SynapseBus.t :=
  let b := SynapseBus.init 0 None None in
  let b := (SynapseBus.subscribe b 0 "agent-a" "#alerts" (Some raising_hook)
              Priority.BACKGROUND None).1 in
  (SynapseBus.subscribe b 0 "agent-b" "#alerts" (Some quiet_hook)
     Priority.BACKGROUND None).1.

Definition world_two_subscribers : SynapseBus.world :=
  SynapseBus.World bus_two_subscribers [].



Definition world_one_subscriber : SynapseBus.world :=
  SynapseBus.World
    (SynapseBus.subscribe (SynapseBus.init 0 None None) 0 "agent-a" "#alerts" None
       Priority.BACKGROUND None).1 [].

(** The [i]-th message of a burst on [#alerts]. *)
Definition burst_message (i : nat) : SynapseMessage.t :=
  {| SynapseMessage.channel := "#alerts";
     SynapseMessage.sender := "agent-b";
     SynapseMessage.payload := [("n", Py.VInt (Z.of_nat i))];
     SynapseMessage.type := MessageType.EVENT;
     SynapseMessage.priority := Priority.NORMAL;
     SynapseMessage.id := "0123456789ab";
     SynapseMessage.timestamp := Z.of_nat i;
     SynapseMessage.ttl := 0;
     SynapseMessage.reply_to := None |}.

Definition burst (n : nat) : list SynapseMessage.t := burst_message <$> seq 0 n.

(** A fresh bus with no store, and nothing in its trace. *)
Definition world_fresh : SynapseBus.world :=
  SynapseBus.World (SynapseBus.init 0 None None) [].


(** A registry with a timeout of 60 seconds: [stale] last heard at instant
    0, [edge] one second later, [idle] unregistered at instant 0. *)
Definition registry_three : AgentRegistry.t :=
  let reg := AgentRegistry.init 60 in
  let reg := (AgentRegistry.register reg 0 "stale" None None None).1 in
  let reg := (AgentRegistry.register reg 1000000 "edge" None None None).1 in
  let reg := (AgentRegistry.register reg 0 "idle" None None None).1 in
  (AgentRegistry.unregister reg "idle").1.


(** A registry whose only agent has unregistered, and a bus over it. *)
Definition registry_one_offline : AgentRegistry.t :=
  let reg := (AgentRegistry.register (AgentRegistry.init 60) 0 "agent-a" None None None).1 in
  (AgentRegistry.unregister reg "agent-a").1.

Definition bus_one_offline : SynapseBus.t :=
  SynapseBus.init 0 (Some registry_one_offline) None.

End Samples.

(** * Properties *)

(** ** Sequences and dictionaries *)

Section py_facts.
Context {A : Type}.
Implicit Types (l : list A) (n : Z).

(** [l[-0:]] is [l[0:]]: the whole list. *)
Lemma tail_slice_zero l : Py.tail_slice 0 l = l.
Proof.
  unfold Py.tail_slice, Py.slice_from. change (- 0) with 0.
  change (0 <? 0) with false. cbv iota.
  replace (Z.to_nat (Z.min 0 (Z.of_nat (length l)))) with 0%nat by lia.
  reflexivity.
Qed.

(** For a positive [n], [l[-n:]] keeps the last [n] elements. *)
Lemma tail_slice_drop l n :
  0 < n -> Py.tail_slice n l = drop (length l - Z.to_nat n) l.
Proof.
  intros Hn. unfold Py.tail_slice, Py.slice_from.
  destruct (Z.ltb_spec (- n) 0) as [Hlt | Hge]; [|lia].
  f_equal. lia.
Qed.

Lemma tail_slice_length l n :
  0 < n -> length (Py.tail_slice n l) = (length l `min` Z.to_nat n)%nat.
Proof. intros Hn. rewrite tail_slice_drop, length_drop by done. lia. Qed.




Context {V : Type}.
Implicit Types (d : Py.dict V) (k : string) (v : V).

Lemma dict_get_set_eq d k v : Py.dict_get k (Py.dict_set k v d) = Some v.
Proof.
  induction d as [|[k' v'] d IH]; simpl.
  - by rewrite decide_True.
  - destruct (decide (k' = k)) as [-> | Hne]; simpl.
    + by rewrite decide_True.
    + by rewrite decide_False.
Qed.

Lemma dict_get_set_ne d k k' v :
  k <> k' -> Py.dict_get k' (Py.dict_set k v d) = Py.dict_get k' d.
Proof.
  intros Hne. induction d as [|[k0 v0] d IH]; simpl.
  - by rewrite decide_False.
  - destruct (decide (k0 = k)) as [-> | Hne0]; simpl.
    + by rewrite !decide_False.
    + destruct (decide (k0 = k')); [done | apply IH].
Qed.

(** Assigning to a key never removes a key. *)
Lemma dict_set_keys_absent d k v :
  Py.dict_get k d = None -> Py.dict_set k v d = d ++ [(k, v)].
Proof.
  induction d as [|[k0 v0] d IH]; simpl; [done|].
  destruct (decide (k0 = k)); [discriminate|].
  intros H. by rewrite IH.
Qed.
End py_facts.

(** ** Wire form of a message *)

Lemma MessageType_of_value_value x : MessageType.of_value (MessageType.value x) = Some x.
Proof. by destruct x. Qed.

Lemma Priority_of_value_value x : Priority.of_value (Priority.value x) = Some x.
Proof. by destruct x. Qed.

(** A member's value is its name in lower case, and no member is falsy. *)
Lemma MessageType_truthy x : MessageType.truthy x = true.
Proof. by destruct x. Qed.

Lemma ClockText_to_pos_of_pos p : ClockText.to_pos (ClockText.of_pos p) = Some p.
Proof. induction p as [p IH | p IH |]; simpl; [by rewrite IH ..| done]. Qed.

Lemma ClockText_parse_render t : ClockText.parse (ClockText.render t) = Some t.
Proof.
  destruct t as [|p|p]; simpl; [done | |]; by rewrite ClockText_to_pos_of_pos.
Qed.

(** C8.  Serializing a message with [to_dict] and parsing the record back
    with [from_dict] gives the original message, field for field; in the
    record the type is the lower-case value string of its member, the
    priority its integer rank, the id the original id and the timestamp
    the text of the original timestamp.  [isoformat] and [fromisoformat]
    are the standard library's, of which the round trip on timestamps is
    assumed. *)
Theorem to_dict_from_dict_roundtrip
    (isoformat : datetime -> string) (fromisoformat : string -> option datetime)
    (Hiso : forall t, fromisoformat (isoformat t) = Some t)
    (m : SynapseMessage.t) :
  SynapseMessage.from_dict fromisoformat (SynapseMessage.to_dict isoformat m) = Py.Ok m
  /\ Py.dict_get "type" (SynapseMessage.to_dict isoformat m)
     = Some (Py.VStr (MessageType.value (SynapseMessage.type m)))
  /\ Py.dict_get "priority" (SynapseMessage.to_dict isoformat m)
     = Some (Py.VInt (Priority.value (SynapseMessage.priority m)))
  /\ Py.dict_get "id" (SynapseMessage.to_dict isoformat m)
     = Some (Py.VStr (SynapseMessage.id m))
  /\ Py.dict_get "timestamp" (SynapseMessage.to_dict isoformat m)
     = Some (Py.VStr (isoformat (SynapseMessage.timestamp m))).
Proof.
  split; [|by repeat split].
  destruct m as [c s p ty pr i ts tl rt].
  unfold SynapseMessage.from_dict, SynapseMessage.to_dict,
    SynapseMessage.getitem, SynapseMessage.fromisoformat_call,
    SynapseMessage.MessageType_call, SynapseMessage.Priority_call.
  simpl. rewrite Hiso, MessageType_of_value_value, Priority_of_value_value.
  simpl. by destruct rt.
Qed.

Lemma to_dict_from_dict_roundtrip_witness :
  SynapseMessage.from_dict ClockText.parse
    (SynapseMessage.to_dict ClockText.render Samples.roundtrip_sample) = Py.Ok Samples.roundtrip_sample
  /\ Py.dict_get "type" (SynapseMessage.to_dict ClockText.render Samples.roundtrip_sample)
     = Some (Py.VStr "data")
  /\ Py.dict_get "priority" (SynapseMessage.to_dict ClockText.render Samples.roundtrip_sample)
     = Some (Py.VInt 1)
  /\ Py.dict_get "id" (SynapseMessage.to_dict ClockText.render Samples.roundtrip_sample)
     = Some (Py.VStr "0123456789ab")
  /\ Py.dict_get "timestamp" (SynapseMessage.to_dict ClockText.render Samples.roundtrip_sample)
     = Some (Py.VStr (ClockText.render 1700000000000000)).
Proof.
  exact (to_dict_from_dict_roundtrip ClockText.render ClockText.parse
           ClockText_parse_render Samples.roundtrip_sample).
Defined.

(** ** Subscription matching *)

Lemma matches_spec (s : Subscription.t) (m : SynapseMessage.t) :
  Subscription.matches s m = true <->
    Priority.value (SynapseMessage.priority m)
      <= Priority.value (Subscription.priority_min s)
    /\ (Subscription.type_filter s = None
        \/ Subscription.type_filter s = Some (SynapseMessage.type m)).
Proof.
  unfold Subscription.matches.
  destruct (decide _) as [Hgt | Hle].
  - split; [discriminate | lia].
  - destruct (Subscription.type_filter s) as [f|].
    + rewrite MessageType_truthy. simpl. case_bool_decide as Hne.
      * split; [discriminate|]. intros [_ [? | [= ->]]]; [discriminate | done].
      * subst f. split; [|done]. intros _. split; [lia | by right].
    + split; [|done]. intros _. split; [lia | by left].
Qed.

(** C1.  A message matches a subscription exactly when its priority value
    is at most the subscription's [priority_min] value and the type filter
    is unset or equals the message type.  With [priority_min = NORMAL] and
    no type filter the messages matched are those of priority CRITICAL,
    HIGH or NORMAL, not LOW or BACKGROUND; with [type_filter = ALERT] every
    matched message has type ALERT, and under the default floor BACKGROUND
    the messages of type ALERT are exactly those matched. *)
Theorem subscription_matches_rule :
  (forall (s : Subscription.t) (m : SynapseMessage.t),
     Subscription.matches s m = true <->
       Priority.value (SynapseMessage.priority m)
         <= Priority.value (Subscription.priority_min s)
       /\ (Subscription.type_filter s = None
           \/ Subscription.type_filter s = Some (SynapseMessage.type m)))
  /\ (forall agent channel cb (m : SynapseMessage.t),
        Subscription.matches
          (Subscription.Build agent channel cb Priority.NORMAL None) m
        = match SynapseMessage.priority m with
          | Priority.CRITICAL | Priority.HIGH | Priority.NORMAL => true
          | Priority.LOW | Priority.BACKGROUND => false
          end)
  /\ (forall agent channel cb floor (m : SynapseMessage.t),
        Subscription.matches
          (Subscription.Build agent channel cb floor (Some MessageType.ALERT)) m = true ->
        SynapseMessage.type m = MessageType.ALERT)
  /\ (forall agent channel cb (m : SynapseMessage.t),
        Subscription.matches
          (Subscription.Build agent channel cb Priority.BACKGROUND (Some MessageType.ALERT)) m
        = bool_decide (SynapseMessage.type m = MessageType.ALERT)).
Proof.
  split; [exact matches_spec|]. split; [|split].
  - intros agent channel cb m. unfold Subscription.matches. simpl.
    by destruct (SynapseMessage.priority m).
  - intros agent channel cb floor m Hm. apply matches_spec in Hm as [_ [H | H]];
      simpl in H; congruence.
  - intros agent channel cb m. unfold Subscription.matches. simpl.
    destruct (decide _) as [Hgt | _].
    + destruct (SynapseMessage.priority m); simpl in Hgt; lia.
    + by destruct (SynapseMessage.type m).
Qed.

(** ** Trailing slices with limit 0 *)

(** C10.  With [limit = 0], [get_inbox] returns the agent's whole inbox,
    filtered by the channel when a non-empty one is given, and
    [get_history] returns the whole history buffer under its channel and
    [since] filters: [msgs[-0:]] is the whole list. *)
Theorem limit_zero_returns_everything
    (b : SynapseBus.t) (agent : string) (c0 : ascii) (c : string) (since : datetime) :
  let inbox := default [] (SynapseBus._inbox b !! agent) in
  let history := SynapseBus._message_history b in
  let on_channel := filter (fun m => SynapseMessage.channel m = String c0 c) in
  let not_before := filter (fun m => SynapseMessage.timestamp m >= since) in
  SynapseBus.get_inbox b agent 0 None = inbox
  /\ SynapseBus.get_inbox b agent 0 (Some "") = inbox
  /\ SynapseBus.get_inbox b agent 0 (Some (String c0 c)) = on_channel inbox
  /\ SynapseBus.get_history b None 0 None = history
  /\ SynapseBus.get_history b (Some "") 0 None = history
  /\ SynapseBus.get_history b (Some (String c0 c)) 0 None = on_channel history
  /\ SynapseBus.get_history b None 0 (Some since) = not_before history
  /\ SynapseBus.get_history b (Some (String c0 c)) 0 (Some since)
     = not_before (on_channel history).
Proof.
  unfold SynapseBus.get_inbox, SynapseBus.get_history. simpl.
  rewrite !tail_slice_zero. by repeat split.
Qed.

(** ** Registry: heartbeat *)

(** C6.  [heartbeat] returns [True] for every name.  For a registered name
    the record keeps its other fields, gets [last_heartbeat = now] and
    status ONLINE; for an unknown name a fresh record for that name is
    added, with status ONLINE.  Either way the name then resolves to an
    online agent heartbeaten at [now]. *)
Theorem heartbeat_always_succeeds (reg : AgentRegistry.t) (now : datetime) (name : string) :
  (AgentRegistry.heartbeat reg now name).2 = true
  /\ match AgentRegistry.get reg name with
     | Some a =>
         AgentRegistry.get (AgentRegistry.heartbeat reg now name).1 name
         = Some (AgentInfo.set_status AgentStatus.ONLINE
                   (AgentInfo.set_last_heartbeat now a))
     | None =>
         AgentRegistry._agents (AgentRegistry.heartbeat reg now name).1
         = AgentRegistry._agents reg ++ [(name, AgentInfo.new now name [] [] [])]
         /\ AgentRegistry.get (AgentRegistry.heartbeat reg now name).1 name
            = Some (AgentInfo.new now name [] [] [])
     end
  /\ exists a', AgentRegistry.get (AgentRegistry.heartbeat reg now name).1 name = Some a'
               /\ AgentInfo.status a' = AgentStatus.ONLINE
               /\ AgentInfo.last_heartbeat a' = now.
Proof.
  unfold AgentRegistry.heartbeat, AgentRegistry.register, AgentRegistry.get.
  destruct (Py.dict_get name (AgentRegistry._agents reg)) as [a|] eqn:Hget; simpl.
  - rewrite dict_get_set_eq. split; [done|]. split; [done|]. by eexists.
  - rewrite dict_get_set_eq. split; [done|]. split.
    + split; [|done]. by apply dict_set_keys_absent.
    + by eexists.
Qed.

(** ** Registry: the timeout sweep *)

Lemma sweep_spec reg now (d : Py.dict AgentInfo.t) :
  AgentRegistry.sweep reg now d
  = ((fun ka => (ka.1, demote_if_lapsed reg now ka.2)) <$> d,
     AgentInfo.name <$> filter (lapsed reg now) (Py.dict_values d)).
Proof.
  induction d as [|[k a] d IH]; [done|].
  simpl. rewrite IH. unfold demote_if_lapsed, Py.dict_values. simpl.
  rewrite filter_cons. unfold lapsed at 1 3.
  destruct (decide (AgentInfo.status a = AgentStatus.ONLINE)) as [Hon | Hoff].
  - destruct (decide (AgentRegistry.timed_out_p reg now a)) as [Hto | Hto].
    + rewrite !decide_True by done. done.
    + rewrite !decide_False by (intros [_ ?]; done). done.
  - rewrite !decide_False by (intros [? _]; done). done.
Qed.

Lemma dict_get_map_values {V W} (g : V -> W) (d : Py.dict V) k :
  Py.dict_get k ((fun kv => (kv.1, g kv.2)) <$> d) = g <$> Py.dict_get k d.
Proof.
  induction d as [|[k' v] d IH]; [done|]. csimpl.
  destruct (decide (k' = k)); [done | apply IH].
Qed.






(** At 61 seconds: [stale] is 61 seconds old and goes offline; [edge] is
    exactly 60 seconds old and stays online; [idle] was offline already and
    is not reported. *)
Example check_timeouts_at_61s :
  let r := AgentRegistry.check_timeouts Samples.registry_three 61000000 in
  r.2 = ["stale"]
  /\ AgentRegistry.statuses r.1
     = [("stale", AgentStatus.OFFLINE); ("edge", AgentStatus.ONLINE);
        ("idle", AgentStatus.OFFLINE)].
Proof. by vm_compute. Qed.

(** A heartbeat from a name never registered. *)
Example heartbeat_ghost :
  let r := AgentRegistry.heartbeat (AgentRegistry.init 60) 5 "ghost" in
  r.2 = true
  /\ AgentRegistry.get r.1 "ghost" = Some (AgentInfo.new 5 "ghost" [] [] []).
Proof. by vm_compute. Qed.

(** ** Bus statistics *)

Lemma stats_agents_online_counts_every_record (b : SynapseBus.t) :
  SynapseBus.agents_online (SynapseBus.stats b)
  = Z.of_nat (length (AgentRegistry._agents (SynapseBus.registry b))).
Proof.
  unfold SynapseBus.stats, AgentRegistry.list_agents, Py.dict_values. simpl.
  by rewrite length_fmap.
Qed.

(** C9.  On a bus whose registry holds one agent, which has unregistered,
    [stats] reports [agents_online = 1] although the registry lists no
    online agent: [stats] counts [list_agents()] without the status
    filter. *)
Theorem stats_agents_online_counts_offline_agent :
  SynapseBus.agents_online (SynapseBus.stats Samples.bus_one_offline) = 1
  /\ AgentRegistry.list_agents (SynapseBus.registry Samples.bus_one_offline)
       (Some AgentStatus.ONLINE) = []
  /\ (AgentInfo.status <$> AgentRegistry.get (SynapseBus.registry Samples.bus_one_offline) "agent-a")
     = Some AgentStatus.OFFLINE.
Proof. by vm_compute. Qed.

(** ** Message store *)






Lemma length_filter_split {A} (P : A -> Prop) `{!forall x, Decision (P x)} (l : list A) :
  (length l = length (filter P l) + length (filter (fun x => ~ P x) l))%nat.
Proof.
  induction l as [|x l IH]; [done|].
  rewrite !filter_cons. destruct (decide (P x)) as [HP | HP].
  - rewrite decide_False by tauto. simpl. lia.
  - rewrite decide_True by done. simpl. lia.
Qed.





(** ** Bus: running a publish *)

Lemma bind_run {S A B} (c : Py.M S A) (k : A -> Py.M S B) s a s' :
  c s = (Py.Ok a, s') -> (x <- c ;; k x) s = k a s'.
Proof. intros H. unfold Py.bind. by rewrite H. Qed.

Lemma fire_callback_run sub msg w :
  SynapseBus.fire_callback sub msg w
  = (Py.Ok tt, SynapseBus.World (SynapseBus.bus w)
                 (SynapseBus.trace w ++ hook_events msg sub)).
Proof.
  unfold SynapseBus.fire_callback, hook_events.
  destruct (Subscription.callback sub) as [cb|].
  - unfold Py.try_except, Py.bind, SynapseBus.emit, Py.modify, Py.raise, Py.ret.
    simpl. destruct (cb msg) as [|[|]|]; simpl; by rewrite <- ?app_assoc.
  - destruct w. unfold Py.ret. simpl. by rewrite app_nil_r.
Qed.

Lemma deliver_run subs msg d w :
  SynapseBus.deliver subs msg d w
  = (Py.Ok (d + Z.of_nat (length (matching subs msg))),
     SynapseBus.World (deliver_inboxes msg (matching subs msg) (SynapseBus.bus w))
       (SynapseBus.trace w ++ concat (hook_events msg <$> matching subs msg))).
Proof.
  revert d w. induction subs as [|sub subs IH]; intros d w.
  - destruct w. unfold matching. simpl. unfold Py.ret.
    by rewrite Z.add_0_r, app_nil_r.
  - simpl. unfold matching. rewrite filter_cons.
    destruct (Subscription.matches sub msg) eqn:Hm; simpl.
    + unfold Py.bind at 1. unfold SynapseBus.modify_bus, Py.modify at 1.
      unfold Py.bind at 1. rewrite fire_callback_run. rewrite IH. simpl.
      f_equal; [f_equal; fold (matching subs msg); lia|].
      by rewrite <- app_assoc.
    + apply IH.
Qed.

Lemma persist_run e msg w :
  exists st, SynapseBus.persist e msg w
             = (Py.Ok tt, SynapseBus.World (SynapseBus.set_storage st (SynapseBus.bus w))
                            (SynapseBus.trace w)).
Proof.
  unfold SynapseBus.persist.
  destruct (SynapseBus.storage (SynapseBus.bus w)) as [db|] eqn:Hst.
  - destruct e; simpl; eauto.
  - exists None. destruct w as [[] ?]. simpl in *. by subst.
Qed.

Lemma append_inbox_inbox a msg b :
  SynapseBus._inbox (SynapseBus.append_inbox a msg b)
  = <[a := push (SynapseBus._max_inbox b) msg (inbox_of b a)]> (SynapseBus._inbox b).
Proof.
  unfold SynapseBus.append_inbox, push, inbox_of. simpl.
  case_decide; simpl; [by rewrite insert_insert_eq | done].
Qed.

Lemma append_inbox_frame a msg b :
  let b' := SynapseBus.append_inbox a msg b in
  SynapseBus.registry b' = SynapseBus.registry b
  /\ SynapseBus.storage b' = SynapseBus.storage b
  /\ SynapseBus._channels b' = SynapseBus._channels b
  /\ SynapseBus._subscriptions b' = SynapseBus._subscriptions b
  /\ SynapseBus._message_history b' = SynapseBus._message_history b
  /\ SynapseBus._max_history b' = SynapseBus._max_history b
  /\ SynapseBus._max_inbox b' = SynapseBus._max_inbox b.
Proof. unfold SynapseBus.append_inbox. simpl. by case_decide. Qed.

Lemma deliver_inboxes_frame msg subs b :
  let b' := deliver_inboxes msg subs b in
  SynapseBus.registry b' = SynapseBus.registry b
  /\ SynapseBus.storage b' = SynapseBus.storage b
  /\ SynapseBus._channels b' = SynapseBus._channels b
  /\ SynapseBus._subscriptions b' = SynapseBus._subscriptions b
  /\ SynapseBus._message_history b' = SynapseBus._message_history b
  /\ SynapseBus._max_history b' = SynapseBus._max_history b
  /\ SynapseBus._max_inbox b' = SynapseBus._max_inbox b.
Proof.
  revert b. induction subs as [|s subs IH]; intros b; [done|].
  simpl. specialize (IH (SynapseBus.append_inbox (Subscription.agent_name s) msg b)).
  simpl in IH. destruct IH as (-> & -> & -> & -> & -> & -> & ->).
  apply append_inbox_frame.
Qed.

(** The inbox writes read only the inboxes and their bound. *)
Lemma deliver_inboxes_ext msg subs b1 b2 :
  SynapseBus._inbox b1 = SynapseBus._inbox b2 ->
  SynapseBus._max_inbox b1 = SynapseBus._max_inbox b2 ->
  SynapseBus._inbox (deliver_inboxes msg subs b1)
  = SynapseBus._inbox (deliver_inboxes msg subs b2).
Proof.
  revert b1 b2. induction subs as [|s subs IH]; intros b1 b2 Hi Hm; [done|].
  simpl. apply IH.
  - rewrite !append_inbox_inbox. unfold inbox_of. by rewrite Hi, Hm.
  - pose proof (append_inbox_frame (Subscription.agent_name s) msg b1) as F1.
    pose proof (append_inbox_frame (Subscription.agent_name s) msg b2) as F2.
    simpl in F1, F2. destruct F1 as (_ & _ & _ & _ & _ & _ & ->).
    by destruct F2 as (_ & _ & _ & _ & _ & _ & ->).
Qed.

Lemma record_history_history msg b :
  SynapseBus._message_history (SynapseBus.record_history msg b)
  = if decide (Z.of_nat (length (SynapseBus._message_history b ++ [msg]))
               > SynapseBus._max_history b)
    then Py.tail_slice (SynapseBus._max_history b) (SynapseBus._message_history b ++ [msg])
    else SynapseBus._message_history b ++ [msg].
Proof. unfold SynapseBus.record_history. simpl. by case_decide. Qed.

(** One publish, as a whole: it returns the number of matching
    subscriptions on the channel, and each part of the bus is rewritten by
    its own step. *)
Lemma publish_run now e msg w :
  let c := SynapseMessage.channel msg in
  let b := SynapseBus.bus w in
  let subs := matching (subscriptions_on b c) msg in
  exists b',
    SynapseBus.publish now e msg w
    = (Py.Ok (Z.of_nat (length subs)),
       SynapseBus.World b' (SynapseBus.trace w ++ concat (hook_events msg <$> subs)))
    /\ SynapseBus.registry b' = SynapseBus.registry b
    /\ SynapseBus._subscriptions b' = SynapseBus._subscriptions b
    /\ SynapseBus._max_history b' = SynapseBus._max_history b
    /\ SynapseBus._max_inbox b' = SynapseBus._max_inbox b
    /\ SynapseBus._message_history b'
       = SynapseBus._message_history (SynapseBus.record_history msg b)
    /\ SynapseBus._inbox b' = SynapseBus._inbox (deliver_inboxes msg subs b)
    /\ SynapseBus._channels b' = <[c := bumped b now c]> (SynapseBus._channels b).
Proof.
  intros c b subs. unfold SynapseBus.publish.
  unfold Py.bind at 1. unfold SynapseBus.modify_bus at 1, Py.modify at 1.
  set (b1 := (SynapseBus.create_channel (SynapseBus.bus w) now (SynapseMessage.channel msg) "").1).
  assert (SynapseBus._channels b1 !! c = Some
            (default (Channel.Build c "" now 0) (SynapseBus._channels b !! c))
          /\ <[c := bumped b now c]> (SynapseBus._channels b1)
             = <[c := bumped b now c]> (SynapseBus._channels b)
          /\ SynapseBus.registry b1 = SynapseBus.registry b
          /\ SynapseBus._subscriptions b1 = SynapseBus._subscriptions b
          /\ SynapseBus._max_history b1 = SynapseBus._max_history b
          /\ SynapseBus._max_inbox b1 = SynapseBus._max_inbox b
          /\ SynapseBus._message_history b1 = SynapseBus._message_history b
          /\ SynapseBus._inbox b1 = SynapseBus._inbox b) as (Hch & Hins & Hr & Hs & Hmh & Hmi & Hh & Hi).
  { subst b1. unfold SynapseBus.create_channel. fold c b.
    destruct (SynapseBus._channels b !! c) as [ch|] eqn:Hlook; simpl.
    - by rewrite Hlook.
    - rewrite lookup_insert_eq, insert_insert_eq. done. }
  unfold Py.bind at 1. unfold SynapseBus.bump_message_count.
  unfold Py.bind at 1. unfold Py.gets at 1. simpl. fold c. rewrite Hch.
  unfold SynapseBus.modify_bus at 1, Py.modify at 1. simpl.
  set (ch := default (Channel.Build c "" now 0) (SynapseBus._channels b !! c)).
  assert (Channel.set_message_count (Channel.message_count ch + 1) ch = bumped b now c) as ->.
  { subst ch. unfold bumped. by destruct (SynapseBus._channels b !! c). }
  rewrite Hins.
  unfold Py.bind at 1. unfold SynapseBus.modify_bus at 1, Py.modify at 1. simpl.
  unfold Py.bind at 1. unfold Py.gets at 1. simpl.
  set (b3 := SynapseBus.record_history msg _).
  assert (SynapseBus._subscriptions b3 = SynapseBus._subscriptions b
          /\ SynapseBus.registry b3 = SynapseBus.registry b
          /\ SynapseBus._max_history b3 = SynapseBus._max_history b
          /\ SynapseBus._max_inbox b3 = SynapseBus._max_inbox b
          /\ SynapseBus._inbox b3 = SynapseBus._inbox b
          /\ SynapseBus._channels b3 = <[c := bumped b now c]> (SynapseBus._channels b)
          /\ SynapseBus._message_history b3
             = SynapseBus._message_history (SynapseBus.record_history msg b))
    as (Hs3 & Hr3 & Hmh3 & Hmi3 & Hi3 & Hc3 & Hh3).
  { subst b3. rewrite !record_history_history. unfold SynapseBus.record_history. simpl.
    rewrite Hh, Hmh. case_decide; simpl; by rewrite ?Hh. }
  rewrite Hs3. fold (subscriptions_on b c).
  unfold Py.bind at 1. rewrite deliver_run. simpl. fold subs.
  destruct (persist_run e msg
              (SynapseBus.World (deliver_inboxes msg subs b3)
                 (SynapseBus.trace w ++ concat (hook_events msg <$> subs)))) as [st Hp].
  unfold Py.bind at 1. rewrite Hp. unfold Py.ret. simpl.
  eexists. split; [reflexivity|]. simpl.
  pose proof (deliver_inboxes_frame msg subs b3) as F. simpl in F.
  destruct F as (-> & _ & -> & -> & -> & -> & ->).
  rewrite (deliver_inboxes_ext msg subs b3 b) by done.
  by repeat split.
Qed.





(** On the sample bus the count returned is 2: the subscriber whose hook
    raises is counted with the other. *)
Example publish_two_subscribers_returns_2 :
  (SynapseBus.publish 7 MessageStore.Serving Samples.ttl10_message
     Samples.world_two_subscribers).1 = Py.Ok 2.
Proof. by vm_compute. Qed.

(** ** Bus: hooks that raise *)









(** On the sample bus: the hook of [agent-a] raises and is logged, the hook
    of [agent-b] is called after it, and both inboxes hold the message. *)
Example publish_two_subscribers_trace :
  let r := SynapseBus.publish 7 MessageStore.Serving Samples.ttl10_message
             Samples.world_two_subscribers in
  r.1 = Py.Ok 2
  /\ SynapseBus.trace r.2
     = [ SynapseBus.HookCalled "agent-a" Samples.ttl10_message;
         SynapseBus.LoggedException "agent-a" "#alerts";
         SynapseBus.HookCalled "agent-b" Samples.ttl10_message ]
  /\ inbox_of (SynapseBus.bus r.2) "agent-a" = [Samples.ttl10_message]
  /\ inbox_of (SynapseBus.bus r.2) "agent-b" = [Samples.ttl10_message].
Proof. by vm_compute. Qed.

(** ** Bus: bounded inboxes *)

Section bounded.
Context {A : Type}.
Implicit Types (l k : list A) (c : nat).

Lemma last_n_short c l : (length l <= c)%nat -> last_n c l = l.
Proof.
  intros H. unfold last_n.
  replace (length l - c)%nat with 0%nat by lia. apply drop_0.
Qed.

Lemma last_n_length c l : length (last_n c l) = (length l `min` c)%nat.
Proof. unfold last_n. rewrite length_drop. lia. Qed.

(** Trimming before more arrivals changes nothing of the final trim:
    eviction is from the old end. *)
Lemma last_n_app_last_n c l k : last_n c (last_n c l ++ k) = last_n c (l ++ k).
Proof.
  destruct (decide (length l <= c)%nat) as [Hle | Hgt].
  - by rewrite (last_n_short c l).
  - unfold last_n at 1 3. rewrite !length_app, last_n_length.
    unfold last_n. rewrite <- (drop_app_le l k) by lia.
    rewrite drop_drop. f_equal. lia.
Qed.

End bounded.

Lemma push_last_n (c : nat) msg l :
  (0 < c)%nat -> push (Z.of_nat c) msg l = last_n c (l ++ [msg]).
Proof.
  intros Hc. unfold push. case_decide as Hlen.
  - rewrite tail_slice_drop by lia. unfold last_n. f_equal. lia.
  - rewrite last_n_short; [done | lia].
Qed.

(** A run of arrivals in a bounded buffer leaves the last [c] of the old
    content followed by the arrivals. *)
Lemma foldl_push_last_n {X} (c : nat) (f : X -> SynapseMessage.t) (xs : list X) l :
  (0 < c)%nat -> xs <> [] \/ (length l <= c)%nat ->
  foldl (fun l x => push (Z.of_nat c) (f x) l) l xs = last_n c (l ++ (f <$> xs)).
Proof.
  intros Hc. revert l. induction xs as [|x xs IH]; intros l H.
  - destruct H as [? | H]; [done|]. simpl. by rewrite app_nil_r, last_n_short.
  - csimpl. rewrite IH.
    + rewrite push_last_n by done. rewrite last_n_app_last_n.
      by rewrite <- app_assoc.
    + right. rewrite push_last_n, last_n_length by done. lia.
Qed.

(** The inbox of one agent after a run of deliveries: one arrival per
    delivery addressed to it. *)
Lemma deliver_inboxes_inbox_of msg subs b a :
  inbox_of (deliver_inboxes msg subs b) a
  = foldl (fun l _ => push (SynapseBus._max_inbox b) msg l) (inbox_of b a)
      (filter (fun s => Subscription.agent_name s = a) subs).
Proof.
  revert b. induction subs as [|s subs IH]; intros b; [done|].
  simpl. rewrite IH.
  pose proof (append_inbox_frame (Subscription.agent_name s) msg b) as F.
  simpl in F. destruct F as (_ & _ & _ & _ & _ & _ & ->).
  rewrite filter_cons. unfold inbox_of at 1. rewrite append_inbox_inbox.
  destruct (decide (Subscription.agent_name s = a)) as [-> | Hne].
  - by rewrite lookup_insert_eq.
  - by rewrite lookup_insert_ne.
Qed.

Lemma matching_of_agent subs msg a :
  filter (fun s => Subscription.agent_name s = a) (matching subs msg)
  = matching (filter (fun s => Subscription.agent_name s = a) subs) msg.
Proof.
  unfold matching. rewrite !list_filter_filter. apply list_filter_iff. tauto.
Qed.

(** The inbox of an agent after one publish. *)
Lemma publish_inbox_of now e msg w a :
  inbox_of (SynapseBus.bus (SynapseBus.publish now e msg w).2) a
  = foldl (fun l _ => push (SynapseBus._max_inbox (SynapseBus.bus w)) msg l)
      (inbox_of (SynapseBus.bus w) a)
      (matching (filter (fun s => Subscription.agent_name s = a)
                   (subscriptions_on (SynapseBus.bus w) (SynapseMessage.channel msg)))
         msg).
Proof.
  destruct (publish_run now e msg w) as (b' & -> & _ & _ & _ & _ & _ & Hi & _).
  simpl. unfold inbox_of at 1. rewrite Hi.
  fold (inbox_of (deliver_inboxes msg
                    (matching (subscriptions_on (SynapseBus.bus w) (SynapseMessage.channel msg)) msg)
                    (SynapseBus.bus w)) a).
  by rewrite deliver_inboxes_inbox_of, matching_of_agent.
Qed.




(** The burst of 101 messages on the sample bus: the first message is gone,
    the inbox runs from the second to the last. *)
Example burst_101_evicts_the_first :
  let w' := (SynapseBus.publish_all 7 MessageStore.Serving (Samples.burst 101)
               Samples.world_one_subscriber).2 in
  inbox_of (SynapseBus.bus w') "agent-a" = Samples.burst_message <$> seq 1 100.
Proof. by vm_compute. Qed.

(** * Further properties of the code *)

(** ** Bus: channels and subscriptions *)

(** X1.  [create_channel] is idempotent: a second call under the same name
    returns the channel of the first and leaves the bus as the first left
    it, whatever description and clock it is given; a name not yet known
    gets a channel with the given description and no message; the other
    channels are not touched. *)
Theorem create_channel_idempotent
    (b : SynapseBus.t) (now1 now2 : datetime) (n d1 d2 : string) :
  let r1 := SynapseBus.create_channel b now1 n d1 in
  SynapseBus.create_channel r1.1 now2 n d2 = r1
  /\ SynapseBus.get_channel r1.1 n = Some r1.2
  /\ match SynapseBus.get_channel b n with
     | Some ch => r1 = (b, ch)
     | None => r1.2 = Channel.Build n d1 now1 0
     end
  /\ (forall k, k <> n -> SynapseBus.get_channel r1.1 k = SynapseBus.get_channel b k).
Proof.
  unfold SynapseBus.create_channel, SynapseBus.get_channel.
  destruct (SynapseBus._channels b !! n) as [ch|] eqn:Hn; simpl.
  - rewrite Hn. done.
  - rewrite lookup_insert_eq. repeat split; try done.
    intros k Hk. by rewrite lookup_insert_ne.
Qed.

Lemma create_channel_subscriptions b now n d :
  SynapseBus._subscriptions (SynapseBus.create_channel b now n d).1
  = SynapseBus._subscriptions b.
Proof. unfold SynapseBus.create_channel. by destruct (_ !! _). Qed.

Lemma create_channel_is_Some b now n d :
  is_Some (SynapseBus._channels (SynapseBus.create_channel b now n d).1 !! n).
Proof.
  unfold SynapseBus.create_channel.
  destruct (SynapseBus._channels b !! n) as [ch|] eqn:Hn; simpl.
  - by rewrite Hn.
  - by rewrite lookup_insert_eq.
Qed.

Lemma create_channel_frame b now n d :
  let b' := (SynapseBus.create_channel b now n d).1 in
  SynapseBus.registry b' = SynapseBus.registry b
  /\ SynapseBus.storage b' = SynapseBus.storage b
  /\ SynapseBus._subscriptions b' = SynapseBus._subscriptions b
  /\ SynapseBus._message_history b' = SynapseBus._message_history b
  /\ SynapseBus._max_history b' = SynapseBus._max_history b
  /\ SynapseBus._inbox b' = SynapseBus._inbox b
  /\ SynapseBus._max_inbox b' = SynapseBus._max_inbox b.
Proof. unfold SynapseBus.create_channel. by destruct (_ !! _). Qed.

Lemma subscribe_subscriptions_on b now a c cb p f c' :
  subscriptions_on (SynapseBus.subscribe b now a c cb p f).1 c'
  = if decide (c' = c)
    then subscriptions_on b c ++ [Subscription.Build a c cb p f]
    else subscriptions_on b c'.
Proof.
  unfold SynapseBus.subscribe, subscriptions_on. simpl.
  rewrite create_channel_subscriptions.
  destruct (decide (c' = c)) as [-> | Hne].
  - by rewrite lookup_insert_eq.
  - by rewrite lookup_insert_ne.
Qed.

Lemma subscribe_frame b now a c cb p f :
  let b' := (SynapseBus.subscribe b now a c cb p f).1 in
  SynapseBus.registry b' = SynapseBus.registry b
  /\ SynapseBus.storage b' = SynapseBus.storage b
  /\ SynapseBus._message_history b' = SynapseBus._message_history b
  /\ SynapseBus._max_history b' = SynapseBus._max_history b
  /\ SynapseBus._inbox b' = SynapseBus._inbox b
  /\ SynapseBus._max_inbox b' = SynapseBus._max_inbox b
  /\ SynapseBus._channels b' = SynapseBus._channels (SynapseBus.create_channel b now c "").1.
Proof.
  unfold SynapseBus.subscribe. simpl.
  pose proof (create_channel_frame b now c "") as F. simpl in F.
  by destruct F as (-> & -> & _ & -> & -> & -> & ->).
Qed.

(** X2.  [subscribe] creates the channel when it is missing and appends
    the new subscription after those already on the channel, without
    looking for a duplicate; the subscriptions on other channels, the
    inboxes and the history are not touched. *)
Theorem subscribe_appends
    (b : SynapseBus.t) (now : datetime) (a c : string)
    (cb : option Subscription.Callback) (p : Priority.t) (f : option MessageType.t) :
  let r := SynapseBus.subscribe b now a c cb p f in
  r.2 = Subscription.Build a c cb p f
  /\ subscriptions_on r.1 c = subscriptions_on b c ++ [r.2]
  /\ (forall c', c' <> c -> subscriptions_on r.1 c' = subscriptions_on b c')
  /\ is_Some (SynapseBus.get_channel r.1 c)
  /\ (forall k, is_Some (SynapseBus.get_channel b k) ->
        SynapseBus.get_channel r.1 k = SynapseBus.get_channel b k)
  /\ SynapseBus._inbox r.1 = SynapseBus._inbox b
  /\ SynapseBus._message_history r.1 = SynapseBus._message_history b.
Proof.
  intros r. split; [done|]. split; [|split; [|split; [|split]]].
  - subst r. rewrite subscribe_subscriptions_on. by rewrite decide_True.
  - intros c' Hne. subst r. rewrite subscribe_subscriptions_on. by rewrite decide_False.
  - pose proof (subscribe_frame b now a c cb p f) as F. cbv zeta in F.
    destruct F as (_ & _ & _ & _ & _ & _ & Hc). unfold SynapseBus.get_channel.
    subst r. rewrite Hc. apply create_channel_is_Some.
  - intros k Hk. pose proof (subscribe_frame b now a c cb p f) as F. cbv zeta in F.
    destruct F as (_ & _ & _ & _ & _ & _ & Hc). unfold SynapseBus.get_channel in *.
    subst r. rewrite Hc. unfold SynapseBus.create_channel.
    destruct (SynapseBus._channels b !! c) as [ch|] eqn:Hlook; simpl; [done|].
    destruct (decide (k = c)) as [-> | Hne].
    + rewrite Hlook in Hk. by destruct Hk.
    + by rewrite lookup_insert_ne.
  - pose proof (subscribe_frame b now a c cb p f) as F. cbv zeta in F.
    subst r. destruct F as (_ & _ & Hh & _ & Hi & _ & _). by rewrite Hh, Hi.
Qed.


Lemma subscribe_inbox_of b now a c cb p f a' :
  inbox_of (SynapseBus.subscribe b now a c cb p f).1 a' = inbox_of b a'.
Proof.
  pose proof (subscribe_frame b now a c cb p f) as F. cbv zeta in F.
  destruct F as (_ & _ & _ & _ & Hi & _ & _). unfold inbox_of. by rewrite Hi.
Qed.




(** ** Bus: unsubscribe *)

Lemma length_filter_ne_agent a (subs : list Subscription.t) :
  Z.of_nat (length subs)
  - Z.of_nat (length (filter (fun s => Subscription.agent_name s <> a) subs))
  = Z.of_nat (length (of_agent a subs)).
Proof.
  unfold of_agent.
  pose proof (length_filter_split (fun s => Subscription.agent_name s = a) subs). lia.
Qed.

Lemma unsubscribe_step_frame a acc ch :
  let b' := (SynapseBus.unsubscribe_step a acc ch).1 in
  SynapseBus.registry b' = SynapseBus.registry acc.1
  /\ SynapseBus.storage b' = SynapseBus.storage acc.1
  /\ SynapseBus._channels b' = SynapseBus._channels acc.1
  /\ SynapseBus._message_history b' = SynapseBus._message_history acc.1
  /\ SynapseBus._max_history b' = SynapseBus._max_history acc.1
  /\ SynapseBus._inbox b' = SynapseBus._inbox acc.1
  /\ SynapseBus._max_inbox b' = SynapseBus._max_inbox acc.1.
Proof. done. Qed.

Lemma unsubscribe_step_subscriptions_on a acc ch c :
  subscriptions_on (SynapseBus.unsubscribe_step a acc ch).1 c
  = if decide (c = ch)
    then filter (fun s => Subscription.agent_name s <> a) (subscriptions_on acc.1 ch)
    else subscriptions_on acc.1 c.
Proof.
  unfold SynapseBus.unsubscribe_step, subscriptions_on. simpl.
  destruct (decide (c = ch)) as [-> | Hne].
  - by rewrite lookup_insert_eq.
  - by rewrite lookup_insert_ne.
Qed.

(** The loop of [unsubscribe] over a list of distinct channels. *)
Lemma unsubscribe_loop a (chs : list string) b r :
  NoDup chs ->
  let res := foldl (SynapseBus.unsubscribe_step a) (b, r) chs in
  (forall c, subscriptions_on res.1 c
             = if decide (c ∈ chs)
               then filter (fun s => Subscription.agent_name s <> a) (subscriptions_on b c)
               else subscriptions_on b c)
  /\ res.2 = r + Z.of_nat (length (of_agent a (concat (subscriptions_on b <$> chs))))
  /\ SynapseBus.registry res.1 = SynapseBus.registry b
  /\ SynapseBus.storage res.1 = SynapseBus.storage b
  /\ SynapseBus._channels res.1 = SynapseBus._channels b
  /\ SynapseBus._message_history res.1 = SynapseBus._message_history b
  /\ SynapseBus._max_history res.1 = SynapseBus._max_history b
  /\ SynapseBus._inbox res.1 = SynapseBus._inbox b
  /\ SynapseBus._max_inbox res.1 = SynapseBus._max_inbox b.
Proof.
  intros Hnd. revert b r. induction Hnd as [|ch chs Hni Hnd IH]; intros b r.
  - simpl. split; [by intros c|]. split; [lia | done].
  - simpl. specialize (IH (SynapseBus.unsubscribe_step a (b, r) ch).1
                          (SynapseBus.unsubscribe_step a (b, r) ch).2).
    rewrite <- surjective_pairing in IH. cbv zeta in IH.
    destruct IH as (Hsubs & Hcount & -> & -> & -> & -> & -> & -> & ->).
    split; [|split; [|done]].
    + intros c. rewrite Hsubs, unsubscribe_step_subscriptions_on. simpl.
      destruct (decide (c = ch)) as [-> | Hne].
      * rewrite (decide_True (P := ch ∈ ch :: chs)) by (apply elem_of_cons; by left).
        rewrite (decide_False (P := ch ∈ chs)) by done. done.
      * destruct (decide (c ∈ chs)) as [Hin | Hnin].
        -- by rewrite decide_True by (apply elem_of_cons; by right).
        -- rewrite decide_False; [done|]. intros [?|?]%elem_of_cons; done.
    + rewrite Hcount.
      assert (subscriptions_on (SynapseBus.unsubscribe_step a (b, r) ch).1 <$> chs
              = subscriptions_on b <$> chs) as ->.
      { apply list_fmap_ext. intros i c Hc.
        rewrite unsubscribe_step_subscriptions_on, decide_False; [done|].
        intros ->. apply Hni. by eapply list_elem_of_lookup_2. }
      unfold SynapseBus.unsubscribe_step. cbn [fst snd].
      fold (subscriptions_on b ch). rewrite length_filter_ne_agent.
      csimpl. unfold of_agent.
      rewrite filter_app, length_app, Nat2Z.inj_add, Z.add_assoc. reflexivity.
Qed.

Lemma of_agent_removed a (subs : list Subscription.t) :
  of_agent a (filter (fun s => Subscription.agent_name s <> a) subs) = [].
Proof.
  unfold of_agent. rewrite list_filter_filter.
  induction subs as [|s subs IH]; [done|].
  rewrite filter_cons, decide_False by tauto. done.
Qed.

Lemma of_agent_other a a' (subs : list Subscription.t) :
  a' <> a ->
  of_agent a' (filter (fun s => Subscription.agent_name s <> a) subs) = of_agent a' subs.
Proof.
  intros Hne. unfold of_agent. rewrite list_filter_filter.
  apply list_filter_iff. intros s. split; [tauto|]. intros ->. done.
Qed.

Lemma unsubscribe_one b a ch :
  Py.str_truthy ch = true ->
  SynapseBus.unsubscribe b a (Some ch) = SynapseBus.unsubscribe_step a (b, 0) ch.
Proof. intros H. unfold SynapseBus.unsubscribe. by rewrite H. Qed.

(** X4.  [unsubscribe(agent, channel)] with a channel name removes from
    that channel exactly the subscriptions of the agent, keeps those of
    the other agents in their order, returns the number removed, and
    leaves the other channels' subscriptions, the channel records, the
    inboxes and the history as they were. *)
Theorem unsubscribe_one_channel
    (b : SynapseBus.t) (a : string) (c0 : ascii) (c : string) :
  let ch := String c0 c in
  let r := SynapseBus.unsubscribe b a (Some ch) in
  subscriptions_on r.1 ch
    = filter (fun s => Subscription.agent_name s <> a) (subscriptions_on b ch)
  /\ of_agent a (subscriptions_on r.1 ch) = []
  /\ (forall a', a' <> a ->
        of_agent a' (subscriptions_on r.1 ch) = of_agent a' (subscriptions_on b ch))
  /\ (forall c', c' <> ch -> subscriptions_on r.1 c' = subscriptions_on b c')
  /\ r.2 = Z.of_nat (length (of_agent a (subscriptions_on b ch)))
  /\ SynapseBus._channels r.1 = SynapseBus._channels b
  /\ SynapseBus._inbox r.1 = SynapseBus._inbox b
  /\ SynapseBus._message_history r.1 = SynapseBus._message_history b.
Proof.
  intros ch r. subst r. rewrite unsubscribe_one by done.
  assert (subscriptions_on (SynapseBus.unsubscribe_step a (b, 0) ch).1 ch
          = filter (fun s => Subscription.agent_name s <> a) (subscriptions_on b ch)) as Hch.
  { rewrite unsubscribe_step_subscriptions_on. by rewrite decide_True. }
  split; [done|]. rewrite Hch. split; [apply of_agent_removed|].
  split; [intros a' Hne; by apply of_agent_other|]. split.
  - intros c' Hne. rewrite unsubscribe_step_subscriptions_on. by rewrite decide_False.
  - split; [|done]. unfold SynapseBus.unsubscribe_step. cbn [fst snd].
    fold (subscriptions_on b ch). rewrite Z.add_0_l. apply length_filter_ne_agent.
Qed.

Lemma subscriptions_on_keys (b : SynapseBus.t) :
  subscriptions_on b <$> (map_to_list (SynapseBus._subscriptions b)).*1
  = (map_to_list (SynapseBus._subscriptions b)).*2.
Proof.
  rewrite <- list_fmap_compose. apply list_fmap_ext. intros i [k v] Hkv. simpl.
  apply list_elem_of_lookup_2, elem_of_map_to_list in Hkv.
  unfold subscriptions_on. by rewrite Hkv.
Qed.

Lemma unsubscribe_all b a :
  SynapseBus.unsubscribe b a None
  = foldl (SynapseBus.unsubscribe_step a) (b, 0)
      (map_to_list (SynapseBus._subscriptions b)).*1.
Proof. done. Qed.

Lemma unsubscribe_none_run (b : SynapseBus.t) (a : string) :
  let r := SynapseBus.unsubscribe b a None in
  (forall c, subscriptions_on r.1 c
             = filter (fun s => Subscription.agent_name s <> a) (subscriptions_on b c))
  /\ (forall c, of_agent a (subscriptions_on r.1 c) = [])
  /\ (forall a' c, a' <> a ->
        of_agent a' (subscriptions_on r.1 c) = of_agent a' (subscriptions_on b c))
  /\ r.2 = Z.of_nat (length (of_agent a
                               (concat (map_to_list (SynapseBus._subscriptions b)).*2)))
  /\ SynapseBus.unsubscribe b a (Some "") = r
  /\ SynapseBus._channels r.1 = SynapseBus._channels b
  /\ SynapseBus._inbox r.1 = SynapseBus._inbox b
  /\ SynapseBus._max_inbox r.1 = SynapseBus._max_inbox b
  /\ SynapseBus._message_history r.1 = SynapseBus._message_history b.
Proof.
  intros r. subst r. rewrite unsubscribe_all.
  pose proof (unsubscribe_loop a (map_to_list (SynapseBus._subscriptions b)).*1 b 0
                (NoDup_fst_map_to_list _)) as H.
  cbv zeta in H. destruct H as (Hsubs & Hcount & _ & _ & Hc & Hh & _ & Hi & Hmi).
  assert (forall c, subscriptions_on
            (foldl (SynapseBus.unsubscribe_step a) (b, 0)
               (map_to_list (SynapseBus._subscriptions b)).*1).1 c
          = filter (fun s => Subscription.agent_name s <> a) (subscriptions_on b c)) as Hall.
  { intros c. rewrite Hsubs. destruct (decide _) as [Hin | Hnin]; [done|].
    assert (subscriptions_on b c = []) as ->; [|done].
    unfold subscriptions_on.
    destruct (SynapseBus._subscriptions b !! c) as [v|] eqn:Hlook; [|done].
    exfalso. apply Hnin. apply list_elem_of_fmap. exists (c, v). split; [done|].
    by apply elem_of_map_to_list. }
  split; [done|]. split; [intros c; rewrite Hall; apply of_agent_removed|].
  split; [intros a' c Hne; rewrite Hall; by apply of_agent_other|].
  split; [by rewrite Hcount, subscriptions_on_keys, Z.add_0_l|]. done.
Qed.

(** X5.  [unsubscribe(agent)] without a channel (or with the empty name)
    leaves the agent no subscription on any channel, keeps every
    subscription of the other agents, in order, returns the number of
    subscriptions the agent had over all channels, and leaves the channel
    records, the inboxes and the history as they were. *)
Theorem unsubscribe_every_channel (b : SynapseBus.t) (a : string) :
  let r := SynapseBus.unsubscribe b a None in
  (forall c, subscriptions_on r.1 c
             = filter (fun s => Subscription.agent_name s <> a) (subscriptions_on b c))
  /\ (forall c, of_agent a (subscriptions_on r.1 c) = [])
  /\ (forall a' c, a' <> a ->
        of_agent a' (subscriptions_on r.1 c) = of_agent a' (subscriptions_on b c))
  /\ r.2 = Z.of_nat (length (of_agent a
                               (concat (map_to_list (SynapseBus._subscriptions b)).*2)))
  /\ SynapseBus.unsubscribe b a (Some "") = r
  /\ SynapseBus._channels r.1 = SynapseBus._channels b
  /\ SynapseBus._inbox r.1 = SynapseBus._inbox b
  /\ SynapseBus._max_inbox r.1 = SynapseBus._max_inbox b
  /\ SynapseBus._message_history r.1 = SynapseBus._message_history b.
Proof. apply unsubscribe_none_run. Qed.

(** ** Bus: who a publish reaches *)

(** X6.  A publish does not touch the inbox of an agent that has no
    matching subscription on the channel of the message. *)
Theorem publish_skips_agents_without_match
    (now : datetime) (e : MessageStore.engine) (msg : SynapseMessage.t)
    (w : SynapseBus.world) (a : string)
    (Hnone : matching (of_agent a (subscriptions_on (SynapseBus.bus w)
                                     (SynapseMessage.channel msg))) msg = []) :
  inbox_of (SynapseBus.bus (SynapseBus.publish now e msg w).2) a
  = inbox_of (SynapseBus.bus w) a.
Proof. rewrite publish_inbox_of. unfold of_agent in Hnone. by rewrite Hnone. Qed.

Lemma publish_skips_agents_without_match_witness :
  inbox_of (SynapseBus.bus (SynapseBus.publish 7 MessageStore.Serving Samples.ttl10_message
                              Samples.world_one_subscriber).2) "agent-b"
  = inbox_of (SynapseBus.bus Samples.world_one_subscriber) "agent-b".
Proof.
  apply (publish_skips_agents_without_match 7 MessageStore.Serving Samples.ttl10_message
           Samples.world_one_subscriber "agent-b").
  reflexivity.
Defined.

(** X7.  After [unsubscribe(agent)] no publish reaches the agent: its
    inbox stays what it was, whatever is published on whatever channel. *)
Theorem unsubscribed_agent_receives_nothing
    (now : datetime) (e : MessageStore.engine) (msg : SynapseMessage.t)
    (b : SynapseBus.t) (tr : list SynapseBus.event) (a : string) :
  inbox_of (SynapseBus.bus
              (SynapseBus.publish now e msg
                 (SynapseBus.World (SynapseBus.unsubscribe b a None).1 tr)).2) a
  = inbox_of b a.
Proof.
  pose proof (unsubscribe_none_run b a) as H. cbv zeta in H.
  destruct H as (_ & Hnone & _ & _ & _ & _ & Hi & _).
  rewrite publish_inbox_of. cbn [SynapseBus.bus].
  fold (of_agent a (subscriptions_on (SynapseBus.unsubscribe b a None).1
                      (SynapseMessage.channel msg))).
  rewrite Hnone. unfold inbox_of. cbn [matching foldl]. by rewrite Hi.
Qed.

(** ** Bus: reading and clearing an inbox *)

Section slices.
Context {A : Type}.
Implicit Types (l : list A) (n : Z).

Lemma tail_slice_nil n : Py.tail_slice n (@nil A) = [].
Proof. unfold Py.tail_slice, Py.slice_from. by rewrite drop_nil. Qed.

Lemma tail_slice_last_n l n : 0 < n -> Py.tail_slice n l = last_n (Z.to_nat n) l.
Proof. intros H. by rewrite tail_slice_drop. Qed.

(** [l[k:]] for a positive [k]: a negative limit drops from the front. *)
Lemma tail_slice_negative l n : n < 0 -> Py.tail_slice n l = drop (Z.to_nat (- n)) l.
Proof.
  intros H. unfold Py.tail_slice, Py.slice_from.
  destruct (Z.ltb_spec (- n) 0) as [|_]; [lia|].
  destruct (decide (- n <= Z.of_nat (length l))) as [Hle | Hgt].
  - f_equal. lia.
  - rewrite (drop_ge l (Z.to_nat (- n))) by lia. apply drop_ge. lia.
Qed.

Lemma tail_slice_suffix l n : Py.tail_slice n l `suffix_of` l.
Proof. unfold Py.tail_slice, Py.slice_from. apply suffix_drop. Qed.
End slices.

(** X8.  [clear_inbox] returns the number of entries the inbox held and
    leaves it empty, so that [get_inbox] then returns nothing for any limit
    and channel; the inboxes of the other agents and the subscriptions are
    not touched. *)
Theorem clear_inbox_empties (b : SynapseBus.t) (a : string) :
  let r := SynapseBus.clear_inbox b a in
  r.2 = Z.of_nat (length (inbox_of b a))
  /\ inbox_of r.1 a = []
  /\ (forall limit channel, SynapseBus.get_inbox r.1 a limit channel = [])
  /\ (forall a', a' <> a -> inbox_of r.1 a' = inbox_of b a')
  /\ SynapseBus._subscriptions r.1 = SynapseBus._subscriptions b
  /\ SynapseBus._message_history r.1 = SynapseBus._message_history b.
Proof.
  unfold SynapseBus.clear_inbox, SynapseBus.get_inbox, inbox_of. simpl.
  rewrite lookup_insert_eq. simpl. repeat split; try done.
  - intros limit [c|]; [destruct (Py.str_truthy c)|]; by rewrite ?filter_nil, tail_slice_nil.
  - intros a' Hne. by rewrite lookup_insert_ne.
Qed.

(** X9.  The limit of [get_inbox] and [get_history] is a slice bound:
    a positive limit gives the last [limit] entries of the (filtered)
    buffer, in order; a negative limit [-k] does not fail and gives the
    buffer without its first [k] entries.  For every limit the result is a
    suffix of the buffer. *)
Theorem limit_is_a_slice_bound (b : SynapseBus.t) (a : string) (limit : Z) :
  let inbox := inbox_of b a in
  let history := SynapseBus._message_history b in
  (0 < limit ->
     SynapseBus.get_inbox b a limit None = last_n (Z.to_nat limit) inbox
     /\ SynapseBus.get_history b None limit None = last_n (Z.to_nat limit) history
     /\ (length (SynapseBus.get_inbox b a limit None) <= Z.to_nat limit)%nat
     /\ (length (SynapseBus.get_history b None limit None) <= Z.to_nat limit)%nat)
  /\ (limit < 0 ->
        SynapseBus.get_inbox b a limit None = drop (Z.to_nat (- limit)) inbox
        /\ SynapseBus.get_history b None limit None = drop (Z.to_nat (- limit)) history)
  /\ SynapseBus.get_inbox b a limit None `suffix_of` inbox
  /\ SynapseBus.get_history b None limit None `suffix_of` history
  /\ (forall c0 c,
        SynapseBus.get_inbox b a limit (Some (String c0 c))
          `suffix_of` filter (fun m => SynapseMessage.channel m = String c0 c) inbox
        /\ SynapseBus.get_history b (Some (String c0 c)) limit None
             `suffix_of` filter (fun m => SynapseMessage.channel m = String c0 c) history).
Proof.
  unfold SynapseBus.get_inbox, SynapseBus.get_history. fold (inbox_of b a). simpl.
  split; [|split]; [| |split; [|split]].
  - intros H. rewrite !tail_slice_last_n by done. rewrite !last_n_length.
    repeat split; lia.
  - intros H. by rewrite !tail_slice_negative.
  - apply tail_slice_suffix.
  - apply tail_slice_suffix.
  - intros c0 c. split; apply tail_slice_suffix.
Qed.

(** ** Bus: the history buffer *)

Lemma record_history_push msg b :
  SynapseBus._message_history (SynapseBus.record_history msg b)
  = push (SynapseBus._max_history b) msg (SynapseBus._message_history b).
Proof. by rewrite record_history_history. Qed.




(** ** Bus: publishing with a store *)







(** ** Bus: statistics *)

Lemma map_fold_sum_insert {V} (g : V -> Z) (m : gmap string V) i x :
  map_fold (fun _ v acc => g v + acc) 0 (<[i := x]> m)
  = map_fold (fun _ v acc => g v + acc) 0 m - default 0 (g <$> m !! i) + g x.
Proof.
  assert (forall (m' : gmap string V) j1 j2 z1 z2 (y : Z),
            j1 <> j2 -> m' !! j1 = Some z1 -> m' !! j2 = Some z2 ->
            g z1 + (g z2 + y) = g z2 + (g z1 + y)) as Hcomm by (intros; lia).
  destruct (m !! i) as [y|] eqn:Hi; simpl.
  - rewrite (map_fold_delete_L _ 0 i y m (Hcomm m) Hi).
    rewrite <- insert_delete_eq.
    rewrite (map_fold_insert_L _ 0 i x (delete i m) (Hcomm _)) by apply lookup_delete_eq.
    lia.
  - rewrite (map_fold_insert_L _ 0 i x m (Hcomm _) Hi). lia.
Qed.

Lemma stats_messages_total_insert (b : SynapseBus.t) m c ch :
  SynapseBus._channels b = <[c := ch]> m ->
  SynapseBus.messages_total (SynapseBus.stats b)
  = map_fold (fun _ c acc => Channel.message_count c + acc) 0 m
    - default 0 (Channel.message_count <$> m !! c) + Channel.message_count ch.
Proof.
  intros H. unfold SynapseBus.stats. simpl. rewrite H.
  apply (map_fold_sum_insert Channel.message_count).
Qed.

(** X13.  [stats] follows the calls: a publish raises [messages_total] by
    exactly one and [channels] by one exactly when it creates the channel,
    and leaves [subscriptions] and [agents_online] as they were; a
    subscribe raises [subscriptions] by exactly one, raises [channels] by
    one exactly when it creates the channel and leaves [messages_total] as
    it was. *)
Theorem stats_follow_publish_and_subscribe (b : SynapseBus.t) (now : datetime) :
  (forall e msg tr,
     let s := SynapseBus.stats b in
     let s' := SynapseBus.stats
                 (SynapseBus.bus (SynapseBus.publish now e msg (SynapseBus.World b tr)).2) in
     SynapseBus.messages_total s' = SynapseBus.messages_total s + 1
     /\ SynapseBus.channels s'
        = SynapseBus.channels s
          + match SynapseBus.get_channel b (SynapseMessage.channel msg) with
            | Some _ => 0 | None => 1 end
     /\ SynapseBus.subscriptions s' = SynapseBus.subscriptions s
     /\ SynapseBus.agents_online s' = SynapseBus.agents_online s)
  /\ (forall a c cb p f,
        let s := SynapseBus.stats b in
        let s' := SynapseBus.stats (SynapseBus.subscribe b now a c cb p f).1 in
        SynapseBus.subscriptions s' = SynapseBus.subscriptions s + 1
        /\ SynapseBus.channels s'
           = SynapseBus.channels s + match SynapseBus.get_channel b c with Some _ => 0 | None => 1 end
        /\ SynapseBus.messages_total s' = SynapseBus.messages_total s
        /\ SynapseBus.agents_online s' = SynapseBus.agents_online s).
Proof.
  split.
  - intros e msg tr s s'.
    destruct (publish_run now e msg (SynapseBus.World b tr))
      as (b' & Hrun & Hr & Hs & _ & _ & _ & _ & Hc).
    cbn [SynapseBus.bus] in *. subst s s'. rewrite Hrun. cbn [snd SynapseBus.bus].
    split; [|split; [|split]].
    + rewrite (stats_messages_total_insert b' _ _ _ Hc).
      unfold SynapseBus.stats.
      cbn [SynapseBus.subscriptions SynapseBus.channels SynapseBus.messages_total SynapseBus.agents_online]. unfold bumped.
      destruct (SynapseBus._channels b !! SynapseMessage.channel msg); simpl; lia.
    + unfold SynapseBus.stats, SynapseBus.get_channel.
      cbn [SynapseBus.subscriptions SynapseBus.channels SynapseBus.messages_total SynapseBus.agents_online]. rewrite Hc, map_size_insert.
      destruct (SynapseBus._channels b !! SynapseMessage.channel msg); simpl; lia.
    + unfold SynapseBus.stats.
      cbn [SynapseBus.subscriptions SynapseBus.channels SynapseBus.messages_total SynapseBus.agents_online]. by rewrite Hs.
    + unfold SynapseBus.stats.
      cbn [SynapseBus.subscriptions SynapseBus.channels SynapseBus.messages_total SynapseBus.agents_online]. by rewrite Hr.
  - intros a c cb p f s s'. subst s s'.
    pose proof (subscribe_frame b now a c cb p f) as F. cbv zeta in F.
    destruct F as (Hr & _ & _ & _ & _ & _ & Hc).
    assert (SynapseBus._subscriptions (SynapseBus.subscribe b now a c cb p f).1
            = <[c := subscriptions_on b c ++ [Subscription.Build a c cb p f]]>
                (SynapseBus._subscriptions b)) as Hsubs.
    { unfold SynapseBus.subscribe, subscriptions_on. simpl.
      by rewrite create_channel_subscriptions. }
    split; [|split; [|split]].
    + unfold SynapseBus.stats.
      cbn [SynapseBus.subscriptions SynapseBus.channels SynapseBus.messages_total SynapseBus.agents_online]. rewrite Hsubs.
      rewrite (map_fold_sum_insert (fun l => Z.of_nat (length l))).
      unfold subscriptions_on. rewrite length_app.
      destruct (SynapseBus._subscriptions b !! c); simpl; lia.
    + unfold SynapseBus.stats, SynapseBus.get_channel.
      cbn [SynapseBus.subscriptions SynapseBus.channels SynapseBus.messages_total SynapseBus.agents_online]. rewrite Hc.
      unfold SynapseBus.create_channel.
      destruct (SynapseBus._channels b !! c) eqn:Hlook; simpl; [lia|].
      rewrite map_size_insert, Hlook. simpl. lia.
    + unfold SynapseBus.stats.
      cbn [SynapseBus.subscriptions SynapseBus.channels SynapseBus.messages_total SynapseBus.agents_online]. rewrite Hc.
      unfold SynapseBus.create_channel.
      destruct (SynapseBus._channels b !! c) eqn:Hlook; simpl; [done|].
      rewrite (map_fold_sum_insert Channel.message_count), Hlook. simpl. lia.
    + unfold SynapseBus.stats.
      cbn [SynapseBus.subscriptions SynapseBus.channels SynapseBus.messages_total SynapseBus.agents_online]. by rewrite Hr.
Qed.

(** ** Bus: what every reachable bus satisfies *)

Lemma create_channel_lookup b now n d k :
  is_Some (SynapseBus._channels b !! k) ->
  SynapseBus._channels (SynapseBus.create_channel b now n d).1 !! k
  = SynapseBus._channels b !! k.
Proof.
  intros Hk. unfold SynapseBus.create_channel.
  destruct (SynapseBus._channels b !! n) as [ch|] eqn:Hn; simpl; [done|].
  destruct (decide (k = n)) as [-> | Hne].
  - rewrite Hn in Hk. by destruct Hk.
  - by rewrite lookup_insert_ne.
Qed.

Lemma create_channel_inv b now n d :
  bus_inv b -> bus_inv (SynapseBus.create_channel b now n d).1.
Proof.
  intros [Hb Hh Hi Hs Hc].
  pose proof (create_channel_frame b now n d) as F. cbv zeta in F.
  destruct F as (_ & _ & Fs & Fh & Fmh & Fi & Fmi).
  split.
  - unfold default_bounds in *. by rewrite Fmh, Fmi.
  - by rewrite Fh.
  - intros a. unfold inbox_of. rewrite Fi. apply Hi.
  - intros c s. unfold subscriptions_on. rewrite Fs. intros Hin.
    destruct (Hs c s Hin) as [Hch Hsome]. split; [done|].
    by rewrite create_channel_lookup.
  - intros k ch. unfold SynapseBus.create_channel.
    destruct (SynapseBus._channels b !! n) as [ch0|] eqn:Hn; simpl; [apply Hc|].
    destruct (decide (k = n)) as [-> | Hne].
    + rewrite lookup_insert_eq. intros [= <-]. simpl. split; [done | lia].
    + rewrite lookup_insert_ne by done. apply Hc.
Qed.

Lemma init_inv now reg st : bus_inv (SynapseBus.init now reg st).
Proof.
  unfold SynapseBus.init.
  generalize SynapseBus.default_channels. intros chans.
  assert (bus_inv (SynapseBus.Build (default (AgentRegistry.init 60) reg) st
                     ∅ ∅ [] 1000 ∅ 100)) as H0.
  { split; try done.
    - simpl. lia.
    - intros a. unfold inbox_of. simpl. rewrite lookup_empty. simpl. lia.
    - intros c s. unfold subscriptions_on. simpl. rewrite lookup_empty. simpl.
      by intros ?%elem_of_nil. }
  revert H0. generalize (SynapseBus.Build (default (AgentRegistry.init 60) reg) st
                           ∅ ∅ [] 1000 ∅ 100).
  induction chans as [|[n d] chans IH]; intros b Hb; [done|].
  simpl. apply IH. by apply create_channel_inv.
Qed.

Lemma init_has_default_channels now reg st :
  has_default_channels (SynapseBus.init now reg st).
Proof.
  intros nd Hnd. unfold SynapseBus.default_channels in Hnd.
  repeat (apply elem_of_cons in Hnd as [-> | Hnd]; [vm_compute; eauto|]).
  by apply elem_of_nil in Hnd.
Qed.

Lemma subscribe_inv b now a c cb p f :
  bus_inv b -> bus_inv (SynapseBus.subscribe b now a c cb p f).1.
Proof.
  intros Hb. pose proof (create_channel_inv b now c "" Hb) as [Hbd Hh Hi Hs Hc].
  pose proof (subscribe_frame b now a c cb p f) as F. cbv zeta in F.
  destruct F as (_ & _ & Fh & Fmh & Fi & Fmi & Fc).
  pose proof (create_channel_frame b now c "") as G. cbv zeta in G.
  destruct G as (_ & _ & Gs & Gh & Gmh & Gi & Gmi).
  split.
  - unfold default_bounds in *. rewrite Fmh, Fmi. by rewrite Gmh, Gmi in Hbd.
  - rewrite Fh. by rewrite Gh in Hh.
  - intros a'. rewrite subscribe_inbox_of. apply (inv_inbox b Hb).
  - intros c' s. rewrite subscribe_subscriptions_on, Fc.
    destruct (decide (c' = c)) as [-> | Hne].
    + intros [Hin | ->%list_elem_of_singleton]%elem_of_app.
      * apply Hs. unfold subscriptions_on in *. by rewrite Gs.
      * split; [done | apply create_channel_is_Some].
    + intros Hin. apply Hs. unfold subscriptions_on in *. by rewrite Gs.
  - intros k ch. rewrite Fc. apply Hc.
Qed.

Lemma unsubscribe_loop_inv a chs b r :
  NoDup chs -> bus_inv b -> bus_inv (foldl (SynapseBus.unsubscribe_step a) (b, r) chs).1.
Proof.
  intros Hnd [Hbd Hh Hi Hs Hc].
  pose proof (unsubscribe_loop a chs b r Hnd) as H. cbv zeta in H.
  destruct H as (Hsubs & _ & _ & _ & Fc & Fh & Fmh & Fi & Fmi).
  split.
  - unfold default_bounds in *. by rewrite Fmh, Fmi.
  - by rewrite Fh.
  - intros a'. unfold inbox_of. rewrite Fi. apply Hi.
  - intros c s. rewrite Hsubs, Fc. intros Hin. apply Hs.
    destruct (decide (c ∈ chs)); [|done].
    by apply list_elem_of_filter in Hin as [_ ?].
  - intros k ch. rewrite Fc. apply Hc.
Qed.

Lemma unsubscribe_inv b a channel :
  bus_inv b -> bus_inv (SynapseBus.unsubscribe b a channel).1.
Proof.
  intros Hb. unfold SynapseBus.unsubscribe.
  destruct channel as [c|]; [destruct (Py.str_truthy c)|];
    apply unsubscribe_loop_inv; try done;
    try apply NoDup_fst_map_to_list.
  apply NoDup_singleton.
Qed.

Lemma clear_inbox_inv b a : bus_inv b -> bus_inv (SynapseBus.clear_inbox b a).1.
Proof.
  intros [Hbd Hh Hi Hs Hc]. split; try done.
  intros a'. unfold inbox_of, SynapseBus.clear_inbox. simpl.
  destruct (decide (a' = a)) as [-> | Hne].
  - rewrite lookup_insert_eq. simpl. lia.
  - rewrite lookup_insert_ne by done. apply Hi.
Qed.

Lemma publish_inv now e msg w :
  bus_inv (SynapseBus.bus w) -> bus_inv (SynapseBus.bus (SynapseBus.publish now e msg w).2).
Proof.
  intros [[Hbh Hbi] Hh Hi Hs Hc].
  pose proof (publish_inbox_of now e msg w) as Hinbox.
  destruct (publish_run now e msg w) as (b' & Hrun & _ & Fs & Fmh & Fmi & Fh & _ & Fc).
  rewrite Hrun in Hinbox |- *. cbn [snd SynapseBus.bus] in *.
  split.
  - unfold default_bounds. by rewrite Fmh, Fmi.
  - rewrite Fh, record_history_push, Hbh. change 1000 with (Z.of_nat 1000).
    rewrite push_last_n, last_n_length by lia. lia.
  - intros a. rewrite Hinbox, Hbi. change 100 with (Z.of_nat 100).
    rewrite (foldl_push_last_n 100 (fun _ => msg)); [| lia | right; apply Hi].
    rewrite last_n_length. lia.
  - intros c s. unfold subscriptions_on. rewrite Fs, Fc. intros Hin.
    destruct (Hs c s Hin) as [Hch Hsome]. split; [done|].
    destruct (decide (c = SynapseMessage.channel msg)) as [-> | Hne].
    + by rewrite lookup_insert_eq.
    + by rewrite lookup_insert_ne.
  - intros k ch. rewrite Fc.
    destruct (decide (k = SynapseMessage.channel msg)) as [-> | Hne].
    + rewrite lookup_insert_eq. intros [= <-]. unfold bumped.
      destruct (SynapseBus._channels (SynapseBus.bus w) !! SynapseMessage.channel msg)
        as [ch0|] eqn:Hlook; simpl; [|split; [done | lia]].
      destruct (Hc _ _ Hlook) as [Hname Hpos]. split; [done | lia].
    + rewrite lookup_insert_ne by done. apply Hc.
Qed.

Lemma run_inv w now c : bus_inv (SynapseBus.bus w) -> bus_inv (SynapseBus.bus (SynapseBus.run w now c)).
Proof.
  intros H. destruct c; simpl.
  - by apply create_channel_inv.
  - by apply subscribe_inv.
  - by apply unsubscribe_inv.
  - by apply publish_inv.
  - by apply clear_inbox_inv.
Qed.

(** No call removes a channel. *)
Lemma run_keeps_channels w now c k :
  is_Some (SynapseBus._channels (SynapseBus.bus w) !! k) ->
  is_Some (SynapseBus._channels (SynapseBus.bus (SynapseBus.run w now c)) !! k).
Proof.
  intros Hk. destruct c; cbn [SynapseBus.run SynapseBus.bus].
  - by rewrite create_channel_lookup.
  - pose proof (subscribe_frame (SynapseBus.bus w) now agent_name channel callback
                  priority_min type_filter) as F. cbv zeta in F.
    destruct F as (_ & _ & _ & _ & _ & _ & Fc). rewrite Fc.
    by rewrite create_channel_lookup.
  - assert (SynapseBus._channels (SynapseBus.unsubscribe (SynapseBus.bus w) agent_name channel).1
            = SynapseBus._channels (SynapseBus.bus w)) as ->; [|done].
    unfold SynapseBus.unsubscribe.
    destruct channel as [c|]; [destruct (Py.str_truthy c)|].
    + pose proof (unsubscribe_loop agent_name [c] (SynapseBus.bus w) 0 (NoDup_singleton c)) as H.
      cbv zeta in H. by destruct H as (_ & _ & _ & _ & -> & _).
    + pose proof (unsubscribe_loop agent_name _ (SynapseBus.bus w) 0
                    (NoDup_fst_map_to_list (SynapseBus._subscriptions (SynapseBus.bus w)))) as H.
      cbv zeta in H. by destruct H as (_ & _ & _ & _ & -> & _).
    + pose proof (unsubscribe_loop agent_name _ (SynapseBus.bus w) 0
                    (NoDup_fst_map_to_list (SynapseBus._subscriptions (SynapseBus.bus w)))) as H.
      cbv zeta in H. by destruct H as (_ & _ & _ & _ & -> & _).
  - destruct (publish_run now e msg w) as (b' & Hrun & _ & _ & _ & _ & _ & _ & Hc).
    rewrite Hrun. cbn [snd SynapseBus.bus]. rewrite Hc.
    destruct (decide (k = SynapseMessage.channel msg)) as [-> | Hne].
    + by rewrite lookup_insert_eq.
    + by rewrite lookup_insert_ne.
  - done.
Qed.

(** X14.  On every bus reached from a new one by [create_channel],
    [subscribe], [unsubscribe], [publish] and [clear_inbox], in any order:
    the bounds are 1000 and 100, the history has at most 1000 entries and
    every inbox at most 100, every subscription sits under the channel it
    names and that channel exists, every channel record sits under its own
    name with a count that is not negative, and the six channels of
    [__init__] are still there. *)
Theorem reachable_bus_invariant (w : SynapseBus.world) (Hreach : bus_reachable w) :
  bus_inv (SynapseBus.bus w) /\ has_default_channels (SynapseBus.bus w).
Proof.
  induction Hreach as [now reg st | w now c Hreach [IH1 IH2]].
  - split; [apply init_inv | apply init_has_default_channels].
  - split; [by apply run_inv|]. intros nd Hnd. apply run_keeps_channels. by apply IH2.
Qed.

Lemma reachable_bus_invariant_witness :
  bus_inv (SynapseBus.bus
             (SynapseBus.run
                (SynapseBus.run Samples.world_fresh 1
                   (SynapseBus.Subscribe "agent-a" "#alerts" None Priority.BACKGROUND None))
                2 (SynapseBus.Publish MessageStore.Serving Samples.ttl10_message)))
  /\ has_default_channels
       (SynapseBus.bus
          (SynapseBus.run
             (SynapseBus.run Samples.world_fresh 1
                (SynapseBus.Subscribe "agent-a" "#alerts" None Priority.BACKGROUND None))
             2 (SynapseBus.Publish MessageStore.Serving Samples.ttl10_message))).
Proof.
  apply reachable_bus_invariant.
  apply bus_reachable_run, bus_reachable_run, bus_reachable_init.
Defined.

(** ** Registry: records *)

Section dict_facts.
Context {V : Type}.
Implicit Types (d : Py.dict V) (k : string) (v : V).

Lemma dict_get_None d k : Py.dict_get k d = None <-> k ∉ d.*1.
Proof.
  induction d as [|[k' v'] d IH]; csimpl.
  - split; [intros _; apply not_elem_of_nil | done].
  - rewrite not_elem_of_cons. destruct (decide (k' = k)) as [-> | Hne].
    + split; [discriminate | intros [? _]; done].
    + rewrite IH. split; [intros ?; split; [congruence | done] | tauto].
Qed.

Lemma dict_set_keys_present d k v v0 :
  Py.dict_get k d = Some v0 -> (Py.dict_set k v d).*1 = d.*1.
Proof.
  induction d as [|[k' v'] d IH]; csimpl; [discriminate|].
  destruct (decide (k' = k)) as [-> | Hne]; csimpl; [done|].
  intros H. by rewrite IH.
Qed.

Lemma dict_set_Forall (P : string * V -> Prop) d k v :
  Forall P d -> P (k, v) -> Forall P (Py.dict_set k v d).
Proof.
  intros Hd Hkv. induction Hd as [|[k' v'] d Hx Hd IH]; csimpl.
  - by constructor.
  - destruct (decide (k' = k)) as [-> | Hne]; constructor; done.
Qed.

Lemma dict_get_elem d k v : NoDup d.*1 -> (k, v) ∈ d -> Py.dict_get k d = Some v.
Proof.
  induction d as [|[k' v'] d IH]; csimpl; [by intros _ ?%elem_of_nil|].
  intros [Hni Hnd]%NoDup_cons [[= -> ->] | Hin]%elem_of_cons.
  - by rewrite decide_True.
  - rewrite decide_False; [by apply IH|].
    intros ->. apply Hni. apply list_elem_of_fmap. by exists (k, v).
Qed.

Lemma dict_get_Some_elem d k v : Py.dict_get k d = Some v -> (k, v) ∈ d.
Proof.
  induction d as [|[k' v'] d IH]; csimpl; [discriminate|].
  destruct (decide (k' = k)) as [-> | Hne].
  - intros [= ->]. apply elem_of_cons. by left.
  - intros H. apply elem_of_cons. right. by apply IH.
Qed.
End dict_facts.

(** X15.  [register] creates or updates: the name then resolves to the
    record returned, which is online with [last_heartbeat = now].  A new
    name gets a fresh record, appended after the others, where a missing
    list or dictionary is empty.  A known name keeps its record in place
    with its name and registration time, and takes the capabilities,
    channels and metadata given, keeping those not given.  No other
    record changes. *)
Theorem register_creates_or_updates
    (reg : AgentRegistry.t) (now : datetime) (n : string)
    (caps chans : option (list string)) (meta : option (Py.dict Py.value)) :
  let r := AgentRegistry.register reg now n caps chans meta in
  AgentRegistry.get r.1 n = Some r.2
  /\ AgentInfo.status r.2 = AgentStatus.ONLINE
  /\ AgentInfo.last_heartbeat r.2 = now
  /\ match AgentRegistry.get reg n with
     | None =>
         r.2 = AgentInfo.new now n (default [] caps) (default [] chans) (default [] meta)
         /\ AgentRegistry._agents r.1 = AgentRegistry._agents reg ++ [(n, r.2)]
     | Some a =>
         AgentInfo.name r.2 = AgentInfo.name a
         /\ AgentInfo.registered_at r.2 = AgentInfo.registered_at a
         /\ AgentInfo.capabilities r.2 = default (AgentInfo.capabilities a) caps
         /\ AgentInfo.channels r.2 = default (AgentInfo.channels a) chans
         /\ AgentInfo.metadata r.2 = default (AgentInfo.metadata a) meta
         /\ (AgentRegistry._agents r.1).*1 = (AgentRegistry._agents reg).*1
     end
  /\ (forall k, k <> n -> AgentRegistry.get r.1 k = AgentRegistry.get reg k)
  /\ AgentRegistry._heartbeat_timeout r.1 = AgentRegistry._heartbeat_timeout reg.
Proof.
  unfold AgentRegistry.register, AgentRegistry.get.
  destruct (Py.dict_get n (AgentRegistry._agents reg)) as [a|] eqn:Hget; simpl.
  - rewrite dict_get_set_eq. split; [done|].
    split; [by destruct caps, chans, meta|]. split; [by destruct caps, chans, meta|].
    split.
    + destruct caps, chans, meta; simpl; repeat split;
        by eapply dict_set_keys_present.
    + split; [|done]. intros k Hne. by rewrite dict_get_set_ne.
  - rewrite dict_get_set_eq. repeat split; try done.
    + by apply dict_set_keys_absent.
    + intros k Hne. by rewrite dict_get_set_ne.
Qed.

(** X16.  [unregister] never deletes: for an unknown name it returns
    [False] and changes nothing; for a known name it returns [True], the
    name still resolves, to the same record with status OFFLINE, the keys
    and their order are kept, and no other record changes. *)
Theorem unregister_marks_offline (reg : AgentRegistry.t) (n : string) :
  let r := AgentRegistry.unregister reg n in
  match AgentRegistry.get reg n with
  | None => r = (reg, false)
  | Some a =>
      r.2 = true
      /\ AgentRegistry.get r.1 n = Some (AgentInfo.set_status AgentStatus.OFFLINE a)
  end
  /\ (AgentRegistry._agents r.1).*1 = (AgentRegistry._agents reg).*1
  /\ (forall k, k <> n -> AgentRegistry.get r.1 k = AgentRegistry.get reg k)
  /\ AgentRegistry._heartbeat_timeout r.1 = AgentRegistry._heartbeat_timeout reg.
Proof.
  unfold AgentRegistry.unregister, AgentRegistry.get.
  destruct (Py.dict_get n (AgentRegistry._agents reg)) as [a|] eqn:Hget; simpl.
  - rewrite dict_get_set_eq. repeat split; try done.
    + by eapply dict_set_keys_present.
    + intros k Hne. by rewrite dict_get_set_ne.
  - done.
Qed.

(** ** Registry: what every reachable registry satisfies *)

Lemma registry_wf_set reg n a (v : AgentInfo.t) :
  registry_wf reg ->
  Py.dict_get n (AgentRegistry._agents reg) = Some a ->
  AgentInfo.name v = AgentInfo.name a ->
  registry_wf (AgentRegistry.set_agents (Py.dict_set n v (AgentRegistry._agents reg)) reg).
Proof.
  intros [Hnd Hnames] Hget Hname. split; simpl.
  - by erewrite dict_set_keys_present.
  - apply dict_set_Forall; [done|]. simpl. rewrite Hname.
    apply dict_get_Some_elem in Hget.
    by apply (proj1 (Forall_forall _ _) Hnames (n, a)).
Qed.

Lemma registry_wf_add reg n (v : AgentInfo.t) :
  registry_wf reg ->
  Py.dict_get n (AgentRegistry._agents reg) = None ->
  AgentInfo.name v = n ->
  registry_wf (AgentRegistry.set_agents (Py.dict_set n v (AgentRegistry._agents reg)) reg).
Proof.
  intros [Hnd Hnames] Hget Hname. split; simpl.
  - rewrite dict_set_keys_absent by done. rewrite fmap_app. apply NoDup_app.
    split; [done|]. split; [|apply NoDup_singleton].
    intros k Hk ->%list_elem_of_singleton. by apply dict_get_None in Hget.
  - by apply dict_set_Forall.
Qed.

Lemma register_wf reg now n caps chans meta :
  registry_wf reg -> registry_wf (AgentRegistry.register reg now n caps chans meta).1.
Proof.
  intros Hwf. unfold AgentRegistry.register.
  destruct (Py.dict_get n (AgentRegistry._agents reg)) as [a|] eqn:Hget; simpl.
  - eapply registry_wf_set; [done..|]. by destruct caps, chans, meta.
  - by apply registry_wf_add.
Qed.

Lemma heartbeat_wf reg now n :
  registry_wf reg -> registry_wf (AgentRegistry.heartbeat reg now n).1.
Proof.
  intros Hwf. unfold AgentRegistry.heartbeat, AgentRegistry.register.
  destruct (Py.dict_get n (AgentRegistry._agents reg)) as [a|] eqn:Hget; simpl.
  - by eapply registry_wf_set.
  - by apply registry_wf_add.
Qed.

Lemma unregister_wf reg n :
  registry_wf reg -> registry_wf (AgentRegistry.unregister reg n).1.
Proof.
  intros Hwf. unfold AgentRegistry.unregister.
  destruct (Py.dict_get n (AgentRegistry._agents reg)) as [a|] eqn:Hget; simpl; [|done].
  by eapply registry_wf_set.
Qed.

Lemma demote_if_lapsed_name reg now a :
  AgentInfo.name (demote_if_lapsed reg now a) = AgentInfo.name a.
Proof. unfold demote_if_lapsed. by case_decide. Qed.

Lemma check_timeouts_agents reg now :
  AgentRegistry._agents (AgentRegistry.check_timeouts reg now).1
  = (fun ka => (ka.1, demote_if_lapsed reg now ka.2)) <$> AgentRegistry._agents reg.
Proof. unfold AgentRegistry.check_timeouts. by rewrite sweep_spec. Qed.

Lemma check_timeouts_names reg now :
  (AgentRegistry.check_timeouts reg now).2
  = AgentInfo.name <$> filter (lapsed reg now) (Py.dict_values (AgentRegistry._agents reg)).
Proof. unfold AgentRegistry.check_timeouts. by rewrite sweep_spec. Qed.

Lemma check_timeouts_wf reg now :
  registry_wf reg -> registry_wf (AgentRegistry.check_timeouts reg now).1.
Proof.
  intros [Hnd Hnames]. split; rewrite check_timeouts_agents.
  - by rewrite <- list_fmap_compose.
  - apply Forall_fmap. eapply Forall_impl; [done|].
    intros [k a] Hka. simpl in *. by rewrite demote_if_lapsed_name.
Qed.

Lemma run_wf reg now c : registry_wf reg -> registry_wf (AgentRegistry.run reg now c).
Proof.
  intros Hwf. destruct c; simpl; try done.
  - by apply register_wf.
  - by apply unregister_wf.
  - by apply heartbeat_wf.
  - by apply check_timeouts_wf.
Qed.

(** X17.  In every registry reached from a new one by its public calls,
    no name is recorded twice and every record is stored under its own
    name; so the names a sweep returns are distinct. *)
Theorem reachable_registry_invariant (reg : AgentRegistry.t)
    (Hreach : registry_reachable reg) :
  registry_wf reg
  /\ (forall now, NoDup (AgentRegistry.check_timeouts reg now).2).
Proof.
  assert (registry_wf reg) as Hwf.
  { induction Hreach as [t | reg now c Hreach IH].
    - split; simpl; constructor.
    - by apply run_wf. }
  split; [done|]. intros now. rewrite check_timeouts_names.
  destruct Hwf as [Hnd Hnames]. unfold Py.dict_values.
  revert Hnd Hnames. generalize (AgentRegistry._agents reg). intros d.
  induction d as [|[k a] d IH]; csimpl; intros Hnd Hnames; [constructor|].
  apply NoDup_cons in Hnd as [Hni Hnd]. apply Forall_cons in Hnames as [Hka Hnames].
  simpl in Hka. rewrite filter_cons. destruct (decide (lapsed reg now a)); [|by apply IH].
  csimpl. apply NoDup_cons. split; [|by apply IH].
  intros Hin. apply Hni. rewrite <- Hka.
  apply list_elem_of_fmap in Hin as (a' & Heq & Hin').
  apply list_elem_of_filter in Hin' as [_ Hin'].
  apply list_elem_of_fmap in Hin' as ([k' a''] & Heq' & Hin''). simpl in Heq'. subst a''.
  apply list_elem_of_fmap. exists (k', a'). split; [|done]. simpl.
  rewrite Heq.
  apply (proj1 (Forall_forall _ _) Hnames (k', a') Hin'').
Qed.

Lemma reachable_registry_invariant_witness :
  registry_wf Samples.registry_three
  /\ (forall now, NoDup (AgentRegistry.check_timeouts Samples.registry_three now).2).
Proof.
  apply reachable_registry_invariant.
  apply (registry_reachable_run _ 0 (AgentRegistry.Unregister "idle")).
  apply (registry_reachable_run _ 0 (AgentRegistry.Register "idle" None None None)).
  apply (registry_reachable_run _ 1000000 (AgentRegistry.Register "edge" None None None)).
  apply (registry_reachable_run _ 0 (AgentRegistry.Register "stale" None None None)).
  apply registry_reachable_init.
Defined.

(** X18.  No call of the registry forgets an agent: the keys after a call
    are the keys before it, in the same order, followed by at most one new
    key; and no call changes the timeout. *)
Theorem registry_never_forgets (reg : AgentRegistry.t) (now : datetime)
    (c : AgentRegistry.call) :
  (exists new, (AgentRegistry._agents (AgentRegistry.run reg now c)).*1
               = (AgentRegistry._agents reg).*1 ++ new
               /\ (length new <= 1)%nat)
  /\ AgentRegistry._heartbeat_timeout (AgentRegistry.run reg now c)
     = AgentRegistry._heartbeat_timeout reg.
Proof.
  assert (forall n (v : AgentInfo.t),
            exists new, (Py.dict_set n v (AgentRegistry._agents reg)).*1
                        = (AgentRegistry._agents reg).*1 ++ new
                        /\ (length new <= 1)%nat) as Hset.
  { intros n v. destruct (Py.dict_get n (AgentRegistry._agents reg)) as [a|] eqn:Hget.
    - exists []. rewrite app_nil_r. split; [by eapply dict_set_keys_present | simpl; lia].
    - exists [n]. rewrite dict_set_keys_absent by done. by rewrite fmap_app. }
  assert (exists new : list string,
            (AgentRegistry._agents reg).*1 = (AgentRegistry._agents reg).*1 ++ new
            /\ (length new <= 1)%nat) as Hsame.
  { exists []. rewrite app_nil_r. split; [done | simpl; lia]. }
  destruct c as [n caps chans meta | n | n | n | st | cap |]; simpl; try done.
  - unfold AgentRegistry.register.
    destruct (Py.dict_get n (AgentRegistry._agents reg)); simpl; split; try done; apply Hset.
  - unfold AgentRegistry.unregister.
    destruct (Py.dict_get n (AgentRegistry._agents reg)); simpl; split; try done; apply Hset.
  - unfold AgentRegistry.heartbeat, AgentRegistry.register.
    destruct (Py.dict_get n (AgentRegistry._agents reg)); simpl; split; try done; apply Hset.
  - split.
    + rewrite check_timeouts_agents, <- list_fmap_compose. apply Hsame.
    + unfold AgentRegistry.check_timeouts. by rewrite sweep_spec.
Qed.

(** ** Registry: sweeps, heartbeats and discovery *)

Lemma lapsed_timeout reg reg' now a :
  AgentRegistry._heartbeat_timeout reg' = AgentRegistry._heartbeat_timeout reg ->
  lapsed reg' now a <-> lapsed reg now a.
Proof. intros H. unfold lapsed, AgentRegistry.timed_out_p. by rewrite H. Qed.

Lemma check_timeouts_timeout reg now :
  AgentRegistry._heartbeat_timeout (AgentRegistry.check_timeouts reg now).1
  = AgentRegistry._heartbeat_timeout reg.
Proof. unfold AgentRegistry.check_timeouts. by rewrite sweep_spec. Qed.

Lemma swept_not_lapsed reg now now' a :
  now' <= now -> ~ lapsed reg now' (demote_if_lapsed reg now a).
Proof.
  intros Hle. unfold demote_if_lapsed. case_decide as Hl.
  - intros [Hon _]. simpl in Hon. discriminate.
  - intros [Hon Hto]. apply Hl. split; [done|].
    unfold AgentRegistry.timed_out_p, elapsed_us in *. lia.
Qed.

Lemma check_timeouts_nothing_lapsed reg now :
  Forall (fun a => ~ lapsed reg now a) (Py.dict_values (AgentRegistry._agents reg)) ->
  AgentRegistry.check_timeouts reg now = (reg, []).
Proof.
  intros Hnone. unfold AgentRegistry.check_timeouts. rewrite sweep_spec.
  assert (filter (lapsed reg now) (Py.dict_values (AgentRegistry._agents reg)) = []) as ->.
  { induction Hnone as [|a l Ha Hl IH]; [done|].
    rewrite filter_cons, decide_False by done. apply IH. }
  assert ((fun ka => (ka.1, demote_if_lapsed reg now ka.2)) <$> AgentRegistry._agents reg
          = AgentRegistry._agents reg) as ->.
  { unfold Py.dict_values in Hnone. revert Hnone.
    generalize (AgentRegistry._agents reg). intros d Hd.
    induction d as [|[k a] d IH]; [done|]. csimpl in *.
    apply Forall_cons in Hd as [Ha Hd]. rewrite IH by done.
    unfold demote_if_lapsed. by rewrite decide_False. }
  by destruct reg.
Qed.

(** X19.  A sweep settles the registry: after [check_timeouts] at some
    instant, a second sweep at that instant or an earlier one returns no
    name and changes nothing. *)
Theorem check_timeouts_settles (reg : AgentRegistry.t) (now : datetime) :
  AgentRegistry.check_timeouts (AgentRegistry.check_timeouts reg now).1 now
  = ((AgentRegistry.check_timeouts reg now).1, [])
  /\ (forall now', now' <= now ->
        AgentRegistry.check_timeouts (AgentRegistry.check_timeouts reg now).1 now'
        = ((AgentRegistry.check_timeouts reg now).1, [])).
Proof.
  assert (forall now', now' <= now ->
            AgentRegistry.check_timeouts (AgentRegistry.check_timeouts reg now).1 now'
            = ((AgentRegistry.check_timeouts reg now).1, [])) as H.
  { intros now' Hle. apply check_timeouts_nothing_lapsed.
    rewrite check_timeouts_agents. unfold Py.dict_values.
    rewrite <- list_fmap_compose. apply Forall_fmap, Forall_forall.
    intros [k a] _. simpl.
    rewrite (lapsed_timeout reg) by apply check_timeouts_timeout.
    by apply swept_not_lapsed. }
  split; [apply H; lia | done].
Qed.

Lemma heartbeat_get reg t n :
  exists a, Py.dict_get n (AgentRegistry._agents (AgentRegistry.heartbeat reg t n).1) = Some a
            /\ AgentInfo.status a = AgentStatus.ONLINE
            /\ AgentInfo.last_heartbeat a = t
            /\ AgentRegistry._heartbeat_timeout (AgentRegistry.heartbeat reg t n).1
               = AgentRegistry._heartbeat_timeout reg.
Proof.
  unfold AgentRegistry.heartbeat, AgentRegistry.register.
  destruct (Py.dict_get n (AgentRegistry._agents reg)) as [a|]; simpl;
    rewrite dict_get_set_eq; by eexists.
Qed.

Lemma registry_wf_named reg a :
  registry_wf reg ->
  a ∈ Py.dict_values (AgentRegistry._agents reg) ->
  Py.dict_get (AgentInfo.name a) (AgentRegistry._agents reg) = Some a.
Proof.
  intros [Hnd Hnames] Hin. unfold Py.dict_values in Hin.
  apply list_elem_of_fmap in Hin as ([k a'] & -> & Hin). simpl.
  pose proof (proj1 (Forall_forall _ _) Hnames (k, a') Hin) as Hk. simpl in Hk.
  rewrite Hk. by apply dict_get_elem.
Qed.

(** X20.  A heartbeat protects for the length of the timeout: on a
    registry as the calls build it, after [heartbeat(name)] at instant
    [t], a sweep at an instant no later than [t] plus the timeout does not
    return the name and leaves the agent online. *)
Theorem heartbeat_protects_within_window
    (reg : AgentRegistry.t) (t now : datetime) (n : string)
    (Hwf : registry_wf reg)
    (Hwin : elapsed_us now t <= AgentRegistry._heartbeat_timeout reg * 1000000) :
  let swept := AgentRegistry.check_timeouts (AgentRegistry.heartbeat reg t n).1 now in
  (n ∉ swept.2)
  /\ (AgentInfo.status <$> AgentRegistry.get swept.1 n) = Some AgentStatus.ONLINE.
Proof.
  intros swept. subst swept.
  set (reg1 := (AgentRegistry.heartbeat reg t n).1).
  destruct (heartbeat_get reg t n) as (a & Hget & Hon & Hhb & Hto). fold reg1 in Hget, Hto.
  assert (registry_wf reg1) as Hwf1 by (by apply heartbeat_wf).
  assert (~ lapsed reg1 now a) as Hnl.
  { intros [_ Hlap]. unfold AgentRegistry.timed_out_p in Hlap. rewrite Hhb, Hto in Hlap. lia. }
  split.
  - rewrite check_timeouts_names. intros Hin.
    apply list_elem_of_fmap in Hin as (a' & Hname & Hin).
    apply list_elem_of_filter in Hin as [Hlap Hin].
    pose proof (registry_wf_named reg1 a' Hwf1 Hin) as Hget'.
    assert (a' = a) as -> by congruence. by apply Hnl.
  - unfold AgentRegistry.get. rewrite check_timeouts_agents, dict_get_map_values, Hget.
    simpl. unfold demote_if_lapsed. rewrite decide_False by done. by rewrite Hon.
Qed.

Lemma registry_three_wf : registry_wf Samples.registry_three.
Proof.
  unfold Samples.registry_three.
  apply unregister_wf, register_wf, register_wf, register_wf.
  split; simpl; constructor.
Qed.

Lemma heartbeat_protects_within_window_witness :
  let swept := AgentRegistry.check_timeouts
                 (AgentRegistry.heartbeat Samples.registry_three 30000000 "stale").1
                 90000000 in
  ("stale" ∉ swept.2)
  /\ (AgentInfo.status <$> AgentRegistry.get swept.1 "stale") = Some AgentStatus.ONLINE.
Proof.
  apply (heartbeat_protects_within_window Samples.registry_three 30000000 90000000 "stale").
  - apply registry_three_wf.
  - vm_compute. discriminate.
Defined.

(** X21.  An unregistered agent is no longer discoverable: on a registry
    as the calls build it, after [unregister(name)] neither
    [list_agents(ONLINE)] nor [find_by_capability] returns a record of
    that name, for any capability, while [get(name)] still resolves if it
    did. *)
Theorem unregistered_agent_is_not_discoverable
    (reg : AgentRegistry.t) (n : string) (Hwf : registry_wf reg) :
  let reg' := (AgentRegistry.unregister reg n).1 in
  (forall a, a ∈ AgentRegistry.list_agents reg' (Some AgentStatus.ONLINE) ->
             AgentInfo.name a <> n)
  /\ (forall cap a, a ∈ AgentRegistry.find_by_capability reg' cap -> AgentInfo.name a <> n)
  /\ (is_Some (AgentRegistry.get reg n) -> is_Some (AgentRegistry.get reg' n)).
Proof.
  intros reg'.
  assert (registry_wf reg') as Hwf' by (by apply unregister_wf).
  assert (forall a, a ∈ Py.dict_values (AgentRegistry._agents reg') ->
                    AgentInfo.status a = AgentStatus.ONLINE -> AgentInfo.name a <> n) as Hkey.
  { intros a Hin Hon Hname.
    pose proof (registry_wf_named reg' a Hwf' Hin) as Hget. rewrite Hname in Hget.
    subst reg'. unfold AgentRegistry.unregister in Hget.
    destruct (Py.dict_get n (AgentRegistry._agents reg)) as [a0|] eqn:Hget0; simpl in Hget.
    - rewrite dict_get_set_eq in Hget. by simplify_eq.
    - congruence. }
  split; [|split].
  - intros a Hin. unfold AgentRegistry.list_agents in Hin.
    apply list_elem_of_filter in Hin as [Hon Hin]. by apply Hkey.
  - intros cap a Hin. unfold AgentRegistry.find_by_capability in Hin.
    apply list_elem_of_filter in Hin as [[_ Hon] Hin]. by apply Hkey.
  - subst reg'. unfold AgentRegistry.unregister, AgentRegistry.get.
    destruct (Py.dict_get n (AgentRegistry._agents reg)) as [a0|] eqn:Hget0; simpl.
    + rewrite dict_get_set_eq. eauto.
    + by rewrite Hget0.
Qed.

Lemma unregistered_agent_is_not_discoverable_witness :
  let reg' := (AgentRegistry.unregister Samples.registry_three "edge").1 in
  (forall a, a ∈ AgentRegistry.list_agents reg' (Some AgentStatus.ONLINE) ->
             AgentInfo.name a <> "edge")
  /\ (forall cap a, a ∈ AgentRegistry.find_by_capability reg' cap -> AgentInfo.name a <> "edge")
  /\ (is_Some (AgentRegistry.get Samples.registry_three "edge") ->
      is_Some (AgentRegistry.get reg' "edge")).
Proof.
  apply (unregistered_agent_is_not_discoverable Samples.registry_three "edge").
  apply registry_three_wf.
Defined.

(** ** Store: the table *)










(** ** Messages: parsing a wire record *)

(** X24.  [from_dict] takes [ttl] and [reply_to] as optional: a record
    without them parses to the message with [ttl = 0] and no [reply_to].
    A record without an [id] is refused with [KeyError] for that key, and
    a record whose type is none of the six values, or whose priority is
    none of the five ranks, with [ValueError].  [isoformat] and
    [fromisoformat] are the standard library's, with their round trip. *)
Theorem from_dict_defaults_and_errors
    (isoformat : datetime -> string) (fromisoformat : string -> option datetime)
    (Hiso : forall t, fromisoformat (isoformat t) = Some t)
    (m : SynapseMessage.t) :
  SynapseMessage.from_dict fromisoformat
    (without_optional (SynapseMessage.to_dict isoformat m))
  = Py.Ok (with_optional_defaults m)
  /\ (forall d, Py.dict_get "id" d = None ->
        SynapseMessage.from_dict fromisoformat d = Py.Raise (Py.KeyError "id"))
  /\ (forall s, MessageType.of_value s = None ->
        SynapseMessage.from_dict fromisoformat
          (Py.dict_set "type" (Py.VStr s) (SynapseMessage.to_dict isoformat m))
        = Py.Raise Py.ValueError)
  /\ (forall z, Priority.of_value z = None ->
        SynapseMessage.from_dict fromisoformat
          (Py.dict_set "priority" (Py.VInt z) (SynapseMessage.to_dict isoformat m))
        = Py.Raise Py.ValueError).
Proof.
  split; [|split; [|split]].
  - destruct m as [c s p ty pr i ts tl rt].
    unfold SynapseMessage.from_dict, SynapseMessage.to_dict, without_optional,
      SynapseMessage.getitem, SynapseMessage.fromisoformat_call,
      SynapseMessage.MessageType_call, SynapseMessage.Priority_call.
    simpl. rewrite Hiso, MessageType_of_value_value, Priority_of_value_value. done.
  - intros d Hd. unfold SynapseMessage.from_dict, SynapseMessage.getitem. by rewrite Hd.
  - intros s Hs. destruct m as [c sd p ty pr i ts tl rt].
    unfold SynapseMessage.from_dict, SynapseMessage.to_dict,
      SynapseMessage.getitem, SynapseMessage.MessageType_call.
    simpl. by rewrite Hs.
  - intros z Hz. destruct m as [c sd p ty pr i ts tl rt].
    unfold SynapseMessage.from_dict, SynapseMessage.to_dict,
      SynapseMessage.getitem, SynapseMessage.MessageType_call,
      SynapseMessage.Priority_call.
    simpl. by rewrite MessageType_of_value_value, Hz.
Qed.

Lemma from_dict_defaults_and_errors_witness :
  SynapseMessage.from_dict ClockText.parse
    (without_optional (SynapseMessage.to_dict ClockText.render Samples.roundtrip_sample))
  = Py.Ok (with_optional_defaults Samples.roundtrip_sample)
  /\ (forall d, Py.dict_get "id" d = None ->
        SynapseMessage.from_dict ClockText.parse d = Py.Raise (Py.KeyError "id"))
  /\ (forall s, MessageType.of_value s = None ->
        SynapseMessage.from_dict ClockText.parse
          (Py.dict_set "type" (Py.VStr s)
             (SynapseMessage.to_dict ClockText.render Samples.roundtrip_sample))
        = Py.Raise Py.ValueError)
  /\ (forall z, Priority.of_value z = None ->
        SynapseMessage.from_dict ClockText.parse
          (Py.dict_set "priority" (Py.VInt z)
             (SynapseMessage.to_dict ClockText.render Samples.roundtrip_sample))
        = Py.Raise Py.ValueError).
Proof.
  exact (from_dict_defaults_and_errors ClockText.render ClockText.parse
           ClockText_parse_render Samples.roundtrip_sample).
Defined.

(** X25.  The enumerations are parsed by value and by nothing else:
    [MessageType(s)] gives a member exactly when [s] is that member's
    value, [Priority(z)] exactly when [z] is that member's rank, so the
    integers accepted as a priority are 0 to 4; and distinct members have
    distinct values. *)
Theorem enumerations_parse_by_value :
  (forall s x, MessageType.of_value s = Some x <-> s = MessageType.value x)
  /\ (forall z p, Priority.of_value z = Some p <-> z = Priority.value p)
  /\ (forall z, is_Some (Priority.of_value z) <-> 0 <= z <= 4)
  /\ (forall x y, MessageType.value x = MessageType.value y -> x = y)
  /\ (forall p q, Priority.value p = Priority.value q -> p = q).
Proof.
  assert (forall s x, MessageType.of_value s = Some x <-> s = MessageType.value x) as HT.
  { intros s x. split; [|intros ->; apply MessageType_of_value_value].
    unfold MessageType.of_value. repeat case_decide; intros [= <-]; by subst. }
  assert (forall z p, Priority.of_value z = Some p <-> z = Priority.value p) as HP.
  { intros z p. split; [|intros ->; apply Priority_of_value_value].
    unfold Priority.of_value. repeat case_decide; intros [= <-]; by subst. }
  split; [done|]. split; [done|]. split; [|split].
  - intros z. split.
    + intros [p Hp]. apply HP in Hp as ->. destruct p; simpl; lia.
    + intros Hz. unfold Priority.of_value. repeat case_decide; eauto. lia.
  - intros x y H. by destruct x, y.
  - intros p q H. by destruct p, q.
Qed.

(** ** Server: the endpoints over the registry and the bus *)

Lemma subscribe_all_subscriptions_on (n : string) now (chans : list string) b c :
  subscriptions_on
    (foldl (fun b ch =>
              (SynapseBus.subscribe b now n ch None Priority.BACKGROUND None).1) b chans) c
  = subscriptions_on b c
    ++ replicate (length (filter (fun ch => ch = c) chans)) (endpoint_subscription n c).
Proof.
  revert b. induction chans as [|ch chans IH]; intros b.
  - simpl. by rewrite app_nil_r.
  - cbn [foldl]. rewrite IH, subscribe_subscriptions_on, filter_cons.
    destruct (decide (c = ch)) as [-> | Hne].
    + rewrite decide_True by done. by rewrite <- app_assoc.
    + rewrite decide_False by done. done.
Qed.

Lemma subscribe_all_frame (n : string) now (chans : list string) b :
  let b' := foldl (fun b ch =>
              (SynapseBus.subscribe b now n ch None Priority.BACKGROUND None).1) b chans in
  SynapseBus.registry b' = SynapseBus.registry b
  /\ SynapseBus._inbox b' = SynapseBus._inbox b
  /\ SynapseBus._message_history b' = SynapseBus._message_history b.
Proof.
  revert b. induction chans as [|ch chans IH]; intros b; [done|].
  cbn [foldl]. specialize (IH (SynapseBus.subscribe b now n ch None Priority.BACKGROUND None).1).
  cbv zeta in IH. destruct IH as (-> & -> & ->).
  pose proof (subscribe_frame b now n ch None Priority.BACKGROUND None) as F.
  cbv zeta in F. by destruct F as (-> & _ & -> & _ & -> & _ & _).
Qed.

Lemma register_agent_run b now req :
  let r := Server.register_agent b now req in
  let reg := AgentRegistry.register (SynapseBus.registry b) now (Server.name req)
               (Some (Server.capabilities req)) (Some (Server.channels req))
               (Some (Server.metadata req)) in
  r.2 = reg.2
  /\ SynapseBus.registry r.1 = reg.1
  /\ (forall c, subscriptions_on r.1 c
                = subscriptions_on b c
                  ++ replicate (length (filter (fun ch => ch = c) (Server.channels req)))
                       (endpoint_subscription (Server.name req) c))
  /\ SynapseBus._inbox r.1 = SynapseBus._inbox b
  /\ SynapseBus._message_history r.1 = SynapseBus._message_history b.
Proof.
  unfold Server.register_agent.
  destruct (AgentRegistry.register _ _ _ _ _ _) as [reg agent]. cbn [fst snd].
  pose proof (subscribe_all_frame (Server.name req) now (Server.channels req)
                (SynapseBus.set_registry reg b)) as F.
  cbv zeta in F. destruct F as (Fr & Fi & Fh).
  split; [done|]. split; [by rewrite Fr|]. split; [|by rewrite Fi, Fh].
  intros c. by rewrite subscribe_all_subscriptions_on.
Qed.

(** X26.  [register_agent] subscribes on every call: after it, each
    channel holds its former subscriptions followed by one subscription
    with the default filters per occurrence of the channel in the request,
    whether or not the agent was registered or subscribed before; so a
    second call with the same request leaves the agent two subscriptions
    per requested channel.  The registration is that of [register]; the
    inboxes and the history are not touched. *)
Theorem register_agent_subscribes_again
    (b : SynapseBus.t) (now1 now2 : datetime) (req : Server.RegisterRequest) :
  let r1 := Server.register_agent b now1 req in
  let r2 := Server.register_agent r1.1 now2 req in
  let copies c := replicate (length (filter (fun ch => ch = c) (Server.channels req)))
                    (endpoint_subscription (Server.name req) c) in
  (forall c, subscriptions_on r1.1 c = subscriptions_on b c ++ copies c)
  /\ (forall c, subscriptions_on r2.1 c = subscriptions_on b c ++ copies c ++ copies c)
  /\ r1.2 = (AgentRegistry.register (SynapseBus.registry b) now1 (Server.name req)
               (Some (Server.capabilities req)) (Some (Server.channels req))
               (Some (Server.metadata req))).2
  /\ SynapseBus.registry r1.1
     = (AgentRegistry.register (SynapseBus.registry b) now1 (Server.name req)
          (Some (Server.capabilities req)) (Some (Server.channels req))
          (Some (Server.metadata req))).1
  /\ SynapseBus._inbox r2.1 = SynapseBus._inbox b
  /\ SynapseBus._message_history r2.1 = SynapseBus._message_history b.
Proof.
  intros r1 r2 copies.
  pose proof (register_agent_run b now1 req) as H1. cbv zeta in H1. fold r1 in H1.
  pose proof (register_agent_run r1.1 now2 req) as H2. cbv zeta in H2. fold r2 in H2.
  destruct H1 as (Ha1 & Hr1 & Hs1 & Hi1 & Hh1). destruct H2 as (_ & _ & Hs2 & Hi2 & Hh2).
  split; [done|]. split; [|split; [done|split; [done|]]].
  - intros c. rewrite Hs2, Hs1. by rewrite <- app_assoc.
  - by rewrite Hi2, Hi1, Hh2, Hh1.
Qed.

(** X27.  [unregister_agent] answers 404 for a name the registry does not
    know, also when that name holds subscriptions, and then nothing is
    done.  For a known name the record goes offline and stays resolvable,
    the agent is left no subscription on any channel, the subscriptions of
    the other agents are kept, and the inboxes are not cleared. *)
Theorem unregister_agent_drops_subscriptions (b : SynapseBus.t) (n : string) :
  match AgentRegistry.get (SynapseBus.registry b) n with
  | None => Server.unregister_agent b n = None
  | Some a =>
      exists b',
        Server.unregister_agent b n = Some b'
        /\ AgentRegistry.get (SynapseBus.registry b') n
           = Some (AgentInfo.set_status AgentStatus.OFFLINE a)
        /\ (forall c, of_agent n (subscriptions_on b' c) = [])
        /\ (forall a' c, a' <> n ->
              of_agent a' (subscriptions_on b' c) = of_agent a' (subscriptions_on b c))
        /\ SynapseBus._inbox b' = SynapseBus._inbox b
        /\ SynapseBus._message_history b' = SynapseBus._message_history b
  end.
Proof.
  unfold Server.unregister_agent, AgentRegistry.unregister, AgentRegistry.get.
  destruct (Py.dict_get n (AgentRegistry._agents (SynapseBus.registry b))) as [a|] eqn:Hget;
    [|done].
  cbn [negb]. cbv iota beta.
  set (b1 := SynapseBus.set_registry _ b).
  pose proof (unsubscribe_none_run b1 n) as H. cbv zeta in H.
  destruct H as (_ & Hnone & Hother & _ & _ & _ & Hi & _ & Hh).
  pose proof (unsubscribe_loop n (map_to_list (SynapseBus._subscriptions b1)).*1 b1 0
                (NoDup_fst_map_to_list _)) as L.
  cbv zeta in L. destruct L as (_ & _ & Lr & _).
  eexists. split; [reflexivity|].
  split; [|split; [done|split; [done|split; [done|done]]]].
  rewrite unsubscribe_all, Lr. subst b1. simpl. by rewrite dict_get_set_eq.
Qed.




